(** * arepas: building the hourly training dataset

    A shallow embedding of [arepas.py].  The script reads three delimited
    files into pandas frames, keeps the readings of one machine inside a time
    window, drops the readings that fall inside a faulty interval of that
    machine, joins them with the batch registry, averages the two metrics per
    clock hour and product type, and keeps the requested product type.

    Modelling choices, all taken from how the script uses pandas:
    - an instant is an integer number of nanoseconds since the epoch
      (the [datetime64[ns]] representation); the missing instant [NaT] is
      [None], and every ordering comparison against it is false; a datetime
      column is either naive or timezone-aware as a whole, and comparing a
      naive with an aware datetime raises [TypeError];
    - a missing text value ([NaN]) is [None]; [==] against it is false, the
      inner merge treats two missing keys as equal, and the group-by drops
      rows whose key is missing;
    - metric values are binary64 numbers, the missing metric being the
      number [nan]; the mean of a group is computed as pandas computes it,
      by a compensated sum divided by the number of values present;
    - [to_datetime] converts a column as a whole: the way it reads one value
      depends on the column, and it may raise;
    - the identifier columns [batch_id] and [arepa_type] hold text, and the
      aggregation is modelled for naive timestamps: a run on other frames
      ends with [OutsideModel];
    - the calls to the logger leave the tables untouched and are left out. *)

From Stdlib Require Import ZArith QArith List String Bool Lia Permutation Sorted.
From Stdlib Require Import RelationClasses.
From Stdlib Require OrderedTypeEx Uint63.
From Stdlib Require Import Floats.PrimFloat Floats.SpecFloat Floats.FloatOps.
Import ListNotations.
Local Open Scope Z_scope.
#[local] Set Warnings "-inexact-float".

(** ** Exceptions and results *)

Inductive exn : Type :=
| FileNotFoundError (msg : string)
| KeyError (col : string)
| TypeError (col : string)
| ValueError (msg : string)
| OSError (msg : string)
| OutsideModel (what : string).

Inductive result (A : Type) : Type :=
| Return (a : A)
| Raise (e : exn).

Arguments Return {A} a.
Arguments Raise {A} e.

Definition bind {A B : Type} (m : result A) (k : A -> result B) : result B :=
  match m with
  | Return a => k a
  | Raise e => Raise e
  end.

Notation "x <- m ;; k" := (bind m (fun x => k))
  (at level 61, m at next level, right associativity).

Fixpoint traverse {A B : Type} (f : A -> result B) (l : list A) : result (list B) :=
  match l with
  | [] => Return []
  | a :: l' => b <- f a ;; bs <- traverse f l' ;; Return (b :: bs)
  end.

(** ** Frames as [read_csv] delivers them *)

Definition instant := Z.

Inductive cell : Type :=
| NaN
| Str (s : string)
| Num (x : float)
| NaT
| Timestamp (t : instant).

Definition raw_row := list (string * cell).

(** A frame: its header, the datetime columns that are timezone-aware, and
    its rows. *)
Record DataFrame : Type := mkDataFrame {
  columns : list string;
  aware_columns : list string;
  rows : list raw_row
}.

Definition has_column (df : DataFrame) (col : string) : bool :=
  existsb (String.eqb col) (columns df).

Definition is_aware_column (df : DataFrame) (col : string) : bool :=
  existsb (String.eqb col) (aware_columns df).

Fixpoint lookup (col : string) (row : raw_row) : option cell :=
  match row with
  | [] => None
  | (name, c) :: row' => if String.eqb name col then Some c else lookup col row'
  end.

(** A field absent from a short line reads as [NaN]. *)
Definition get (col : string) (row : raw_row) : cell :=
  match lookup col row with
  | Some c => c
  | None => NaN
  end.

Definition column_values (df : DataFrame) (col : string) : list cell :=
  map (get col) (rows df).

Definition map_column (f : cell -> cell) (col : string) (row : raw_row) : raw_row :=
  map (fun kv => if String.eqb (fst kv) col then (fst kv, f (snd kv)) else kv) row.

(** The dtype [read_csv] and [to_datetime] give a column: [float64] or
    [int64] when every value is a number or missing (an entirely missing
    column is [float64]), [object] when the values are texts or missing and
    for a frame without rows, a datetime dtype when they are instants. *)
Inductive dtype : Type :=
| Object
| Numeric
| Datetime
| Mixed.

Definition is_number (c : cell) : bool :=
  match c with
  | NaN | Num _ => true
  | _ => false
  end.

Definition is_text (c : cell) : bool :=
  match c with
  | NaN | Str _ => true
  | _ => false
  end.

Definition is_instant (c : cell) : bool :=
  match c with
  | NaT | Timestamp _ => true
  | _ => false
  end.

Definition column_dtype (df : DataFrame) (col : string) : dtype :=
  match column_values df col with
  | [] => Object
  | vs =>
      if forallb is_number vs then Numeric
      else if forallb is_text vs then Object
      else if forallb is_instant vs then Datetime
      else Mixed
  end.

(** ** Typed rows of the three sources *)

Record MetricRecord : Type := mkMetric {
  machine_id : option string;
  timestamp : option instant;
  batch_id : option string;
  metric_1 : float;
  metric_2 : float
}.

Record FaultyInterval : Type := mkFaulty {
  fi_machine_id : option string;
  start_time : option instant;
  end_time : option instant
}.

Record BatchRegistryEntry : Type := mkBatch {
  br_batch_id : option string;
  br_arepa_type : option string
}.

(** A row of the merged frame: the metric columns followed by the registry
    columns other than the join key. *)
Record MergedRow : Type := mkMerged {
  mr_machine_id : option string;
  mr_timestamp : option instant;
  mr_batch_id : option string;
  mr_metric_1 : float;
  mr_metric_2 : float;
  mr_arepa_type : option string
}.

(** A row of the frame after [groupby(...).agg(...).reset_index()]. *)
Record HourlyAggregate : Type := mkHourly {
  ha_timestamp : instant;
  ha_arepa_type : string;
  ha_metric_1 : float;
  ha_metric_2 : float
}.

(** ** Element-wise comparisons of pandas *)

(** [series == text]: false on a missing value. *)
Definition text_eq (x : option string) (s : string) : bool :=
  match x with
  | Some a => String.eqb a s
  | None => false
  end.

(** [series >= bound] and [series <= bound] on instants: false as soon as
    either side is [NaT]. *)
Definition ts_ge (x bound : option instant) : bool :=
  match x, bound with
  | Some a, Some b => b <=? a
  | _, _ => false
  end.

Definition ts_le (x bound : option instant) : bool :=
  match x, bound with
  | Some a, Some b => a <=? b
  | _, _ => false
  end.

(** Equality of join keys: the merge pairs a missing key with a missing key. *)
Definition key_eqb (x y : option string) : bool :=
  match x, y with
  | Some a, Some b => String.eqb a b
  | None, None => true
  | _, _ => false
  end.

(** ** filter_cooking_data *)

Definition in_window (machine : string) (start_time end_time : instant)
    (r : MetricRecord) : bool :=
  text_eq (machine_id r) machine
  && ts_ge (timestamp r) (Some start_time)
  && ts_le (timestamp r) (Some end_time).

Definition filter_cooking_data (cooking_metrics : list MetricRecord) (machine : string)
    (start_time end_time : instant) : list MetricRecord :=
  filter (in_window machine start_time end_time) cooking_metrics.

(** ** filter_faulty_intervals *)

Definition faulty_mask (row : FaultyInterval) (r : MetricRecord) : bool :=
  ts_ge (timestamp r) (start_time row) && ts_le (timestamp r) (end_time row).

(** One turn of the loop over [faulty_intervals.iterrows()]. *)
Definition exclude_interval (machine : string) (filtered_metrics : list MetricRecord)
    (row : FaultyInterval) : list MetricRecord :=
  if text_eq (fi_machine_id row) machine
  then filter (fun r => negb (faulty_mask row r)) filtered_metrics
  else filtered_metrics.

Definition filter_faulty_intervals (faulty_intervals : list FaultyInterval)
    (filtered_metrics : list MetricRecord) (machine : string) : list MetricRecord :=
  fold_left (exclude_interval machine) faulty_intervals filtered_metrics.

(** ** pd.merge(filtered_metrics, batch_registry, on='batch_id') *)

Definition join_row (m : MetricRecord) (b : BatchRegistryEntry) : MergedRow :=
  {| mr_machine_id := machine_id m;
     mr_timestamp := timestamp m;
     mr_batch_id := batch_id m;
     mr_metric_1 := metric_1 m;
     mr_metric_2 := metric_2 m;
     mr_arepa_type := br_arepa_type b |}.

Definition matches (m : MetricRecord) (b : BatchRegistryEntry) : bool :=
  key_eqb (batch_id m) (br_batch_id b).

(** Inner join, in the order of the left rows, one output row per match. *)
Definition pd_merge (filtered_metrics : list MetricRecord)
    (batch_registry : list BatchRegistryEntry) : list MergedRow :=
  flat_map (fun m => map (join_row m) (filter (matches m) batch_registry))
           filtered_metrics.

(** ** group_by_hourly_average_cooking_metrics *)

Definition hour : Z := 3600 * 1000000000.

(** The label of the bin of [Grouper(freq='h')]: the start of the clock hour. *)
Definition floor_hour (t : instant) : instant := hour * (t / hour).

Definition group_key : Type := (instant * string)%type.

Definition key_of (r : MergedRow) : option group_key :=
  match mr_timestamp r, mr_arepa_type r with
  | Some t, Some a => Some (floor_hour t, a)
  | _, _ => None
  end.

Definition group_key_eqb (k1 k2 : group_key) : bool :=
  (fst k1 =? fst k2) && String.eqb (snd k1) (snd k2).

Definition group_key_leb (k1 k2 : group_key) : bool :=
  (fst k1 <? fst k2) || ((fst k1 =? fst k2) && String.leb (snd k1) (snd k2)).

Definition in_group (k : group_key) (r : MergedRow) : bool :=
  match key_of r with
  | Some k' => group_key_eqb k' k
  | None => false
  end.

(** The keys of the rows that have one, in row order. *)
Fixpoint row_keys (merged_data : list MergedRow) : list group_key :=
  match merged_data with
  | [] => []
  | r :: rest =>
      match key_of r with
      | Some k => k :: row_keys rest
      | None => row_keys rest
      end
  end.

Fixpoint distinct (ks : list group_key) : list group_key :=
  match ks with
  | [] => []
  | k :: ks' => if existsb (group_key_eqb k) ks' then distinct ks' else k :: distinct ks'
  end.

Fixpoint insert_key (k : group_key) (ks : list group_key) : list group_key :=
  match ks with
  | [] => [k]
  | h :: ks' => if group_key_leb k h then k :: h :: ks' else h :: insert_key k ks'
  end.

Fixpoint sort_keys (ks : list group_key) : list group_key :=
  match ks with
  | [] => []
  | k :: ks' => insert_key k (sort_keys ks')
  end.

(** The observed groups, sorted by (bucket, type) as [groupby] sorts them. *)
Definition groups (merged_data : list MergedRow) : list group_key :=
  sort_keys (distinct (row_keys merged_data)).

(** The running state of ['mean'] for one group and one column: the
    compensated sum, its compensation term and the number of values seen. *)
Record mean_state : Type := mkMeanState {
  sumx : float;
  compensation : float;
  nobs : nat
}.

(** One value enters the mean: a missing value is passed over; otherwise the
    value is added with Kahan's compensation, which is reset when it is not
    a number (an infinite value has entered). *)
Definition mean_step (st : mean_state) (val : float) : mean_state :=
  if PrimFloat.is_nan val then st
  else
    let y := (val - compensation st)%float in
    let t := (sumx st + y)%float in
    let c := (t - sumx st - y)%float in
    {| sumx := t;
       compensation := if PrimFloat.is_nan c then 0%float else c;
       nobs := S (nobs st) |}.

Definition count_to_float (n : nat) : float :=
  PrimFloat.of_uint63 (Uint63.of_Z (Z.of_nat n)).

(** ['mean'] of one group: missing values count neither in the sum nor in
    the divisor, and a group without values has a missing mean. *)
Definition mean (vs : list float) : float :=
  let st := fold_left mean_step vs {| sumx := 0; compensation := 0; nobs := 0 |} in
  match nobs st with
  | O => PrimFloat.nan
  | S _ => (sumx st / count_to_float (nobs st))%float
  end.

Definition aggregate (merged_data : list MergedRow) (k : group_key) : HourlyAggregate :=
  let members := filter (in_group k) merged_data in
  {| ha_timestamp := fst k;
     ha_arepa_type := snd k;
     ha_metric_1 := mean (map mr_metric_1 members);
     ha_metric_2 := mean (map mr_metric_2 members) |}.

Definition group_by_hourly_average_cooking_metrics (merged_data : list MergedRow)
    : list HourlyAggregate :=
  map (aggregate merged_data) (groups merged_data).

(** ** filter_by_arepa_type *)

Definition filter_by_arepa_type (merged_data : list HourlyAggregate) (arepa : string)
    : list HourlyAggregate :=
  filter (fun r => String.eqb (ha_arepa_type r) arepa) merged_data.

(** ** Reading the columns of a frame

    The stages address columns by name: a frame without the column raises
    [KeyError].  The typed rows the stages compute with are read off the
    cells; what a cell of another kind than its column's would make of the
    run is decided where the script uses the column. *)

Definition require (df : DataFrame) (col : string) : result unit :=
  if has_column df col then Return tt else Raise (KeyError col).

(** [machine_id] is only ever compared with the text given on the command
    line, and a value that is not text compares unequal to it. *)
Definition machine_of (c : cell) : option string :=
  match c with
  | Str s => Some s
  | _ => None
  end.

Definition text_of (c : cell) : option string :=
  match c with
  | Str s => Some s
  | _ => None
  end.

Definition number_of (c : cell) : float :=
  match c with
  | Num x => x
  | _ => PrimFloat.nan
  end.

Definition instant_of (col : string) (c : cell) : result (option instant) :=
  match c with
  | Timestamp t => Return (Some t)
  | NaT => Return None
  | _ => Raise (TypeError col)
  end.

Definition metric_record (row : raw_row) : result MetricRecord :=
  ts <- instant_of "timestamp" (get "timestamp" row) ;;
  Return {| machine_id := machine_of (get "machine_id" row);
            timestamp := ts;
            batch_id := text_of (get "batch_id" row);
            metric_1 := number_of (get "metric_1" row);
            metric_2 := number_of (get "metric_2" row) |}.

Definition metric_records (df : DataFrame) : result (list MetricRecord) :=
  traverse metric_record (rows df).

Definition registry_record (row : raw_row) : BatchRegistryEntry :=
  {| br_batch_id := text_of (get "batch_id" row);
     br_arepa_type := text_of (get "arepa_type" row) |}.

Definition registry_records (df : DataFrame) : list BatchRegistryEntry :=
  map registry_record (rows df).

(** ** load_dataset *)

(** What [to_datetime(column, errors='coerce')] settles for one column:
    whether the resulting column is timezone-aware, and the instant it reads
    in each value, [None] where it reads none. *)
Record conversion : Type := mkConversion {
  tz_aware : bool;
  convert : cell -> option instant
}.

Definition coerce (conv : conversion) (c : cell) : cell :=
  match convert conv c with
  | Some t => Timestamp t
  | None => NaT
  end.

Definition mark_aware (col : string) (aware : bool) (cols : list string) : list string :=
  let others := filter (fun c => negb (String.eqb c col)) cols in
  if aware then col :: others else others.

(** [datetime.fromisoformat] gives a naive datetime, or an aware one when
    the text carries an offset. *)
Inductive datetime : Type :=
| Naive (t : instant)
| Aware (t : instant).

Section Pipeline.

(** [read_csv(path, delimiter=..., decimal=...)]. *)
Variable pd_import_csv : string -> string -> string -> result DataFrame.
(** [to_datetime(column, errors='coerce')], from the values of the column. *)
Variable pd_to_datetime : list cell -> result conversion.
(** [datetime.fromisoformat]. *)
Variable fromisoformat : string -> result datetime.

(** One turn of the loop over [date_columns]. *)
Definition coerce_column (file_dataset : DataFrame) (col : string) : result DataFrame :=
  if has_column file_dataset col
  then conv <- pd_to_datetime (column_values file_dataset col) ;;
       Return {| columns := columns file_dataset;
                 aware_columns := mark_aware col (tz_aware conv)
                                             (aware_columns file_dataset);
                 rows := map (map_column (coerce conv) col) (rows file_dataset) |}
  else Return file_dataset.

Fixpoint coerce_columns (date_columns : list string) (file_dataset : DataFrame)
    : result DataFrame :=
  match date_columns with
  | [] => Return file_dataset
  | col :: rest =>
      file_dataset' <- coerce_column file_dataset col ;;
      coerce_columns rest file_dataset'
  end.

Definition load_dataset (file_path : string) (date_columns : list string)
    (delimiter decimal_separator : string) : result DataFrame :=
  match pd_import_csv file_path delimiter decimal_separator with
  | Raise (FileNotFoundError msg) => Raise (FileNotFoundError msg)
  | Raise e => Raise e
  | Return file_dataset => coerce_columns date_columns file_dataset
  end.

(** ** The stages on frames *)

(** The bound of a comparison with a datetime column: the comparison raises
    when one side is naive and the other aware. *)
Definition comparable (df : DataFrame) (col : string) (bound : datetime)
    : result instant :=
  match bound, is_aware_column df col with
  | Naive t, false => Return t
  | Aware t, true => Return t
  | _, _ => Raise (TypeError col)
  end.

(** [filter_cooking_data] on the loaded frame (lines 57-59). *)
Definition window_stage (cooking_metrics : DataFrame) (machine : string)
    (start_time end_time : datetime) : result (list MetricRecord) :=
  _ <- require cooking_metrics "machine_id" ;;
  _ <- require cooking_metrics "timestamp" ;;
  cooking_rows <- metric_records cooking_metrics ;;
  s <- comparable cooking_metrics "timestamp" start_time ;;
  e <- comparable cooking_metrics "timestamp" end_time ;;
  Return (filter_cooking_data cooking_rows machine s e).

(** [row['start_time']] or [row['end_time']] as the bound of a comparison
    with the timestamps of the metrics: the missing instant compares with
    any column; an instant must be aware exactly when the timestamps are. *)
Definition interval_bound (faulty_intervals : DataFrame) (metrics_aware : bool)
    (col : string) (row : raw_row) : result (option instant) :=
  _ <- require faulty_intervals col ;;
  match get col row with
  | NaT => Return None
  | Timestamp t =>
      if Bool.eqb (is_aware_column faulty_intervals col) metrics_aware
      then Return (Some t)
      else Raise (TypeError col)
  | _ => Raise (TypeError col)
  end.

(** One turn of the loop of [filter_faulty_intervals] (lines 77-80): the
    bounds are read only for an interval of the machine. *)
Definition exclude_row (faulty_intervals : DataFrame) (metrics_aware : bool)
    (machine : string) (filtered_metrics : list MetricRecord) (row : raw_row)
    : result (list MetricRecord) :=
  _ <- require faulty_intervals "machine_id" ;;
  if text_eq (machine_of (get "machine_id" row)) machine
  then s <- interval_bound faulty_intervals metrics_aware "start_time" row ;;
       e <- interval_bound faulty_intervals metrics_aware "end_time" row ;;
       Return (exclude_interval machine filtered_metrics
                 {| fi_machine_id := machine_of (get "machine_id" row);
                    start_time := s;
                    end_time := e |})
  else Return filtered_metrics.

Fixpoint exclusion_loop (faulty_intervals : DataFrame) (metrics_aware : bool)
    (machine : string) (faulty_rows : list raw_row)
    (filtered_metrics : list MetricRecord) : result (list MetricRecord) :=
  match faulty_rows with
  | [] => Return filtered_metrics
  | row :: rest =>
      filtered_metrics' <-
        exclude_row faulty_intervals metrics_aware machine filtered_metrics row ;;
      exclusion_loop faulty_intervals metrics_aware machine rest filtered_metrics'
  end.

(** [filter_faulty_intervals] on the loaded frame (lines 76-82). *)
Definition exclusion_stage (faulty_intervals cooking_metrics : DataFrame)
    (filtered_metrics : list MetricRecord) (machine : string)
    : result (list MetricRecord) :=
  exclusion_loop faulty_intervals (is_aware_column cooking_metrics "timestamp")
                 machine (rows faulty_intervals) filtered_metrics.

(** The check of the key columns by [merge]: none when exactly one side
    has no row; text keys join with text keys; text against numbers is
    refused when both sides have rows. The other combinations (numbers with
    numbers, and keys of two frames without rows that are not both text) are
    not modelled. *)
Definition check_merge_keys (cooking_metrics batch_registry : DataFrame)
    (filtered_metrics : list MetricRecord) : result unit :=
  match filtered_metrics, rows batch_registry with
  | [], _ :: _ => Return tt
  | _ :: _, [] => Return tt
  | [], [] =>
      match column_dtype cooking_metrics "batch_id" with
      | Object => Return tt
      | _ => Raise (OutsideModel "batch_id")
      end
  | _ :: _, _ :: _ =>
      match column_dtype cooking_metrics "batch_id",
            column_dtype batch_registry "batch_id" with
      | Object, Object => Return tt
      | Object, Numeric => Raise (ValueError "batch_id")
      | Numeric, Object => Raise (ValueError "batch_id")
      | _, _ => Raise (OutsideModel "batch_id")
      end
  end.

(** [pd.merge(filtered_metrics, batch_registry, on='batch_id')] (line 166). *)
Definition merge_stage (cooking_metrics batch_registry : DataFrame)
    (filtered_metrics : list MetricRecord) : result (list MergedRow) :=
  _ <- require batch_registry "batch_id" ;;
  _ <- require cooking_metrics "batch_id" ;;
  _ <- check_merge_keys cooking_metrics batch_registry filtered_metrics ;;
  Return (pd_merge filtered_metrics (registry_records batch_registry)).

(** A column of the merged frame that the aggregation takes from the
    [own] frame: when both frames have it the merge renames it and when
    neither has it it is missing ([KeyError]); taking it from the other
    frame is not modelled. *)
Definition merged_column (own other : DataFrame) (col : string) : result unit :=
  match has_column own col, has_column other col with
  | true, false => Return tt
  | false, true => Raise (OutsideModel col)
  | _, _ => Raise (KeyError col)
  end.

Definition numeric_column (df : DataFrame) (col : string) : result unit :=
  match column_dtype df col with
  | Numeric => Return tt
  | _ => Raise (OutsideModel col)
  end.

(** [group_by_hourly_average_cooking_metrics] on the merged frame
    (lines 99-101). *)
Definition aggregation_stage (cooking_metrics batch_registry : DataFrame)
    (merged_data : list MergedRow) : result (list HourlyAggregate) :=
  _ <- merged_column cooking_metrics batch_registry "timestamp" ;;
  _ <- (if is_aware_column cooking_metrics "timestamp"
        then Raise (OutsideModel "timestamp") else Return tt) ;;
  _ <- merged_column batch_registry cooking_metrics "arepa_type" ;;
  _ <- (if forallb is_text (column_values batch_registry "arepa_type")
        then Return tt else Raise (OutsideModel "arepa_type")) ;;
  _ <- merged_column cooking_metrics batch_registry "metric_1" ;;
  _ <- merged_column cooking_metrics batch_registry "metric_2" ;;
  _ <- numeric_column cooking_metrics "metric_1" ;;
  _ <- numeric_column cooking_metrics "metric_2" ;;
  Return (group_by_hourly_average_cooking_metrics merged_data).

(** ** generate_training_dataset *)

Definition date_columns : list string := ["timestamp"; "start_time"; "end_time"]%string.

Definition generate_training_dataset
    (cooking_path faulty_path batch_path machine_id arepa_type_name
     start_time end_time : string) : result (list HourlyAggregate) :=
  cooking_metrics <- load_dataset cooking_path date_columns ";" "," ;;
  faulty_intervals <- load_dataset faulty_path date_columns ";" "," ;;
  batch_registry <- load_dataset batch_path date_columns ";" "," ;;
  start_datetime <- fromisoformat start_time ;;
  end_datetime <- fromisoformat end_time ;;
  filtered_metrics <-
    window_stage cooking_metrics machine_id start_datetime end_datetime ;;
  filtered_metrics <-
    exclusion_stage faulty_intervals cooking_metrics filtered_metrics machine_id ;;
  merged_data <- merge_stage cooking_metrics batch_registry filtered_metrics ;;
  hourly_avg_metrics <-
    aggregation_stage cooking_metrics batch_registry merged_data ;;
  Return (filter_by_arepa_type hourly_avg_metrics arepa_type_name).

End Pipeline.

(** ** Notions the properties are stated with *)

(** [Subsequence l1 l2]: [l1] is [l2] with some elements left out. *)
Inductive Subsequence {A : Type} : list A -> list A -> Prop :=
| sub_nil : Subsequence [] []
| sub_skip (x : A) (l1 l2 : list A) : Subsequence l1 l2 -> Subsequence l1 (x :: l2)
| sub_keep (x : A) (l1 l2 : list A) : Subsequence l1 l2 -> Subsequence (x :: l1) (x :: l2).

(** The timestamp of [r] lies in the closed range of the interval [iv]. *)
Definition in_closed_range (iv : FaultyInterval) (r : MetricRecord) : Prop :=
  exists t s e : instant,
    timestamp r = Some t /\ start_time iv = Some s /\ end_time iv = Some e /\
    s <= t <= e.

(** The union of the ranges of the intervals of one machine, as a test. *)
Definition excluded (machine : string) (faulty_intervals : list FaultyInterval)
    (r : MetricRecord) : bool :=
  existsb (fun iv => text_eq (fi_machine_id iv) machine && faulty_mask iv r)
          faulty_intervals.

Definition has_match (batch_registry : list BatchRegistryEntry) (m : MetricRecord) : bool :=
  existsb (matches m) batch_registry.

(** ** The scenario of the specification and a sample environment *)

Definition minute : Z := 60 * 1000000000.
Definition day : Z := 24 * hour.

(** The instant at [h]:[m] on the day number [d] since the epoch. *)
Definition clock (d h m : Z) : instant := d * day + h * hour + m * minute.

Definition metrics_header : list string :=
  ["machine_id"; "timestamp"; "batch_id"; "metric_1"; "metric_2"]%string.

Definition metrics_line (machine ts batch : string) (m1 m2 : float) : raw_row :=
  [("machine_id", Str machine); ("timestamp", Str ts); ("batch_id", Str batch);
   ("metric_1", Num m1); ("metric_2", Num m2)]%string.

(** The three files of the scenario as [read_csv] delivers them, the date
    columns still text. *)
Definition scenario_cooking (c1 c2 c3 : string) : DataFrame :=
  {| columns := metrics_header;
     aware_columns := [];
     rows := [metrics_line "M1" c1 "B1" 2%float 4%float;
              metrics_line "M1" c2 "B1" 3%float 5%float;
              metrics_line "M1" c3 "B1" 10%float 10%float] |}.

Definition scenario_faulty (cs ce : string) : DataFrame :=
  {| columns := ["machine_id"; "start_time"; "end_time"]%string;
     aware_columns := [];
     rows := [[("machine_id", Str "M1"); ("start_time", Str cs);
               ("end_time", Str ce)]%string] |}.

Definition scenario_registry : DataFrame :=
  {| columns := ["batch_id"; "arepa_type"]%string;
     aware_columns := [];
     rows := [[("batch_id", Str "B1"); ("arepa_type", Str "classic")]%string] |}.

Fixpoint assoc {A : Type} (key : string) (table : list (string * A)) : option A :=
  match table with
  | [] => None
  | (k, v) :: table' => if String.eqb k key then Some v else assoc key table'
  end.

(** 1 January 2024 is day 19723 since the epoch. *)
Definition sample_day : Z := 19723.

Definition sample_convert (c : cell) : option instant :=
  match c with
  | Str s =>
      assoc s [("2024-01-01 10:15:00", clock sample_day 10 15);
               ("2024-01-01 10:45:00", clock sample_day 10 45);
               ("2024-01-01 11:05:00", clock sample_day 11 5);
               ("2024-01-01 11:00:00", clock sample_day 11 0);
               ("2024-01-01 11:30:00", clock sample_day 11 30)]%string
  | _ => None
  end.

Definition sample_conversion : conversion :=
  {| tz_aware := false; convert := sample_convert |}.

Definition has_offset (c : cell) : bool :=
  match c with
  | Str s => String.eqb s "2024-01-01 10:15:00+02:00"
  | _ => false
  end.

(** A column that mixes a text with an offset among texts without one is
    refused; any other column is read value by value. *)
Definition sample_to_datetime (column : list cell) : result conversion :=
  if existsb has_offset column
  then Raise (ValueError "Mixed timezones detected")
  else Return sample_conversion.

Definition sample_fromisoformat (s : string) : result datetime :=
  match assoc s [("2024-01-01T10:00:00", Naive (clock sample_day 10 0));
                 ("2024-01-01T12:00:00", Naive (clock sample_day 12 0));
                 ("2024-01-01T10:00:00+00:00", Aware (clock sample_day 10 0))]%string with
  | Some t => Return t
  | None => Raise (ValueError s)
  end.

Definition sample_files (path delimiter decimal_separator : string) : result DataFrame :=
  if String.eqb path "input_dataset/cooking_metrics.csv"
  then Return (scenario_cooking "2024-01-01 10:15:00" "2024-01-01 10:45:00"
                                "2024-01-01 11:05:00")
  else if String.eqb path "input_dataset/faulty_intervals.csv"
  then Return (scenario_faulty "2024-01-01 11:00:00" "2024-01-01 11:30:00")
  else if String.eqb path "input_dataset/batch_registry.csv"
  then Return scenario_registry
  else if String.eqb path "input_dataset/mixed_tz.csv"
  then Return (scenario_cooking "2024-01-01 10:15:00+02:00" "2024-01-01 10:45:00"
                                "2024-01-01 11:05:00")
  else Raise (FileNotFoundError path).

(** The frames of the scenario once loaded, and their typed rows. *)
Definition loaded_cooking (d : Z) : DataFrame :=
  {| columns := metrics_header;
     aware_columns := [];
     rows := [[("machine_id", Str "M1"); ("timestamp", Timestamp (clock d 10 15));
               ("batch_id", Str "B1"); ("metric_1", Num 2%float); ("metric_2", Num 4%float)];
              [("machine_id", Str "M1"); ("timestamp", Timestamp (clock d 10 45));
               ("batch_id", Str "B1"); ("metric_1", Num 3%float); ("metric_2", Num 5%float)];
              [("machine_id", Str "M1"); ("timestamp", Timestamp (clock d 11 5));
               ("batch_id", Str "B1"); ("metric_1", Num 10%float);
               ("metric_2", Num 10%float)]]%string |}.

Definition loaded_faulty (d : Z) : DataFrame :=
  {| columns := ["machine_id"; "start_time"; "end_time"]%string;
     aware_columns := [];
     rows := [[("machine_id", Str "M1"); ("start_time", Timestamp (clock d 11 0));
               ("end_time", Timestamp (clock d 11 30))]%string] |}.

Definition scenario_metric (d h m : Z) (m1 m2 : float) : MetricRecord :=
  {| machine_id := Some "M1"%string; timestamp := Some (clock d h m);
     batch_id := Some "B1"%string; metric_1 := m1; metric_2 := m2 |}.

Definition scenario_metrics (d : Z) : list MetricRecord :=
  [scenario_metric d 10 15 2%float 4%float;
   scenario_metric d 10 45 3%float 5%float;
   scenario_metric d 11 5 10%float 10%float].

Definition scenario_intervals (d : Z) : list FaultyInterval :=
  [{| fi_machine_id := Some "M1"%string; start_time := Some (clock d 11 0);
      end_time := Some (clock d 11 30) |}].

(** More sample rows: a reading of a batch the registry does not know, a
    registry of two batches, and an interval whose start failed to parse. *)
Definition sample_metrics : list MetricRecord :=
  scenario_metrics sample_day ++
  [{| machine_id := Some "M1"%string; timestamp := Some (clock sample_day 11 40);
      batch_id := Some "B9"%string; metric_1 := 7%float; metric_2 := PrimFloat.nan |}].

Definition sample_registry : list BatchRegistryEntry :=
  [{| br_batch_id := Some "B1"%string; br_arepa_type := Some "classic"%string |};
   {| br_batch_id := Some "B2"%string; br_arepa_type := Some "reina"%string |}].

Definition sample_open_interval : FaultyInterval :=
  {| fi_machine_id := Some "M1"%string; start_time := None;
     end_time := Some (clock sample_day 11 30) |}.

(** An interval whose end precedes its start. *)
Definition sample_inverted_interval : FaultyInterval :=
  {| fi_machine_id := Some "M1"%string; start_time := Some (clock sample_day 11 30);
     end_time := Some (clock sample_day 11 0) |}.

(** An interval of machine M1 that covers the whole day. *)
Definition sample_whole_day_interval : FaultyInterval :=
  {| fi_machine_id := Some "M1"%string; start_time := Some (clock sample_day 0 0);
     end_time := Some (clock sample_day 24 0) |}.

(** The metric columns of a merged row. *)
Definition metric_part (j : MergedRow) : MetricRecord :=
  {| machine_id := mr_machine_id j;
     timestamp := mr_timestamp j;
     batch_id := mr_batch_id j;
     metric_1 := mr_metric_1 j;
     metric_2 := mr_metric_2 j |}.

(** The (bucket, type) label of an output row. *)
Definition label (o : HourlyAggregate) : group_key := (ha_timestamp o, ha_arepa_type o).

(** The row has both a timestamp and a product type. *)
Definition has_key (r : MergedRow) : bool :=
  match key_of r with
  | Some _ => true
  | None => false
  end.

(** The number of rows of the group labelled [k]. *)
Definition group_size (merged_data : list MergedRow) (k : group_key) : nat :=
  List.length (filter (in_group k) merged_data).

(** Strictly increasing labels: an earlier bucket, or the same bucket and a
    type that comes first in the order of strings. *)
Definition label_lt (k1 k2 : group_key) : Prop :=
  fst k1 < fst k2 \/ (fst k1 = fst k2 /\ String.ltb (snd k1) (snd k2) = true).

(** Merged rows of two types in two hours, one without a type. *)
Definition sample_merged_row (h m : Z) (a : option string) (m1 m2 : float)
    : MergedRow :=
  {| mr_machine_id := Some "M1"%string; mr_timestamp := Some (clock sample_day h m);
     mr_batch_id := Some "B1"%string; mr_metric_1 := m1; mr_metric_2 := m2;
     mr_arepa_type := a |}.

Definition sample_merged : list MergedRow :=
  [ sample_merged_row 11 5 (Some "reina"%string) (10%float) PrimFloat.nan;
    sample_merged_row 10 15 (Some "classic"%string) (2%float) (4%float);
    sample_merged_row 10 45 (Some "classic"%string) (3%float) (5%float);
    sample_merged_row 10 50 None (1%float) (1%float);
    sample_merged_row 11 20 (Some "classic"%string) (6%float) (8%float) ].

(** The conversion reads the text [c] as the naive instant [t], for every
    pair of the list. *)
Definition reads_naive (conv : conversion) (readings : list (string * instant)) : Prop :=
  tz_aware conv = false /\
  Forall (fun ct => convert conv (Str (fst ct)) = Some (snd ct)) readings.

(** The intervals of a loaded frame as the loop of the Excluder sees them. *)
Definition bound_of (c : cell) : option instant :=
  match c with
  | Timestamp t => Some t
  | _ => None
  end.

Definition faulty_interval (row : raw_row) : FaultyInterval :=
  {| fi_machine_id := machine_of (get "machine_id" row);
     start_time := bound_of (get "start_time" row);
     end_time := bound_of (get "end_time" row) |}.

(** The frames of a run are as the script expects them: each has its
    columns, the datetime columns hold naive instants, the metrics are
    numbers, the batch ids and the product types texts. *)
Definition is_numeric (d : dtype) : bool :=
  match d with
  | Numeric => true
  | _ => false
  end.

Definition is_object (d : dtype) : bool :=
  match d with
  | Object => true
  | _ => false
  end.

Definition cooking_schema (cooking : DataFrame) : bool :=
  has_column cooking "machine_id" && has_column cooking "timestamp"
  && has_column cooking "batch_id"
  && has_column cooking "metric_1" && has_column cooking "metric_2"
  && negb (has_column cooking "arepa_type")
  && forallb is_instant (column_values cooking "timestamp")
  && negb (is_aware_column cooking "timestamp")
  && is_numeric (column_dtype cooking "metric_1")
  && is_numeric (column_dtype cooking "metric_2")
  && is_object (column_dtype cooking "batch_id").

Definition faulty_schema (faulty : DataFrame) : bool :=
  has_column faulty "machine_id"
  && has_column faulty "start_time" && has_column faulty "end_time"
  && forallb is_instant (column_values faulty "start_time")
  && forallb is_instant (column_values faulty "end_time")
  && negb (is_aware_column faulty "start_time")
  && negb (is_aware_column faulty "end_time").

Definition registry_schema (registry : DataFrame) : bool :=
  has_column registry "batch_id" && has_column registry "arepa_type"
  && negb (has_column registry "timestamp")
  && negb (has_column registry "metric_1") && negb (has_column registry "metric_2")
  && forallb is_text (column_values registry "arepa_type")
  && is_object (column_dtype registry "batch_id").

(** ** The arithmetic mean, for comparison *)






(** The readings of the scenario that survive the window and the exclusion,
    and their join with the registry. *)
Definition scenario_kept (d : Z) : list MetricRecord :=
  [scenario_metric d 10 15 2 4; scenario_metric d 10 45 3 5].

Definition scenario_joined (d : Z) : list MergedRow :=
  [ {| mr_machine_id := Some "M1"%string; mr_timestamp := Some (clock d 10 15);
       mr_batch_id := Some "B1"%string; mr_metric_1 := 2; mr_metric_2 := 4;
       mr_arepa_type := Some "classic"%string |};
    {| mr_machine_id := Some "M1"%string; mr_timestamp := Some (clock d 10 45);
       mr_batch_id := Some "B1"%string; mr_metric_1 := 3; mr_metric_2 := 5;
       mr_arepa_type := Some "classic"%string |} ].

Definition scenario_aggregates (d : Z) : list HourlyAggregate :=
  [ {| ha_timestamp := clock d 10 0; ha_arepa_type := "classic";
       ha_metric_1 := 2.5; ha_metric_2 := 4.5 |} ].
(** ** Properties of the comparisons *)

Lemma text_eq_true (x : option string) (s : string) :
  text_eq x s = true <-> x = Some s.
Proof.
  destruct x as [a|]; simpl.
  - rewrite String.eqb_eq. split; [intros ->; reflexivity | intros [= ->]; reflexivity].
  - split; discriminate.
Qed.

Lemma ts_ge_true (x bound : option instant) :
  ts_ge x bound = true <-> exists t b, x = Some t /\ bound = Some b /\ b <= t.
Proof.
  destruct x as [t|], bound as [b|]; simpl;
    try (split; [discriminate | intros (t' & b' & H1 & H2 & _); discriminate]).
  rewrite Z.leb_le. split.
  - intros H. exists t, b. auto.
  - intros (t' & b' & [= <-] & [= <-] & H). exact H.
Qed.

Lemma ts_le_true (x bound : option instant) :
  ts_le x bound = true <-> exists t b, x = Some t /\ bound = Some b /\ t <= b.
Proof.
  destruct x as [t|], bound as [b|]; simpl;
    try (split; [discriminate | intros (t' & b' & H1 & H2 & _); discriminate]).
  rewrite Z.leb_le. split.
  - intros H. exists t, b. auto.
  - intros (t' & b' & [= <-] & [= <-] & H). exact H.
Qed.

Lemma faulty_mask_true (iv : FaultyInterval) (r : MetricRecord) :
  faulty_mask iv r = true <-> in_closed_range iv r.
Proof.
  unfold faulty_mask, in_closed_range.
  rewrite andb_true_iff, ts_ge_true, ts_le_true. split.
  - intros [(t & s & Ht & Hs & Hst) (t' & e & Ht' & He & Hte)].
    rewrite Ht in Ht'. injection Ht' as <-.
    exists t, s, e. repeat split; assumption.
  - intros (t & s & e & Ht & Hs & He & Hst & Hte). split.
    + exists t, s. auto.
    + exists t, e. auto.
Qed.

Lemma faulty_mask_null_bound (iv : FaultyInterval) (r : MetricRecord) :
  start_time iv = None \/ end_time iv = None -> faulty_mask iv r = false.
Proof.
  unfold faulty_mask, ts_ge, ts_le.
  intros [H | H]; rewrite H; destruct (timestamp r); simpl;
    try reflexivity; try apply andb_false_r.
Qed.

(** ** Properties of list filtering *)

Lemma filter_Subsequence {A : Type} (p : A -> bool) (l : list A) :
  Subsequence (filter p l) l.
Proof.
  induction l as [|x l IH]; simpl.
  - apply sub_nil.
  - destruct (p x); [apply sub_keep | apply sub_skip]; exact IH.
Qed.

Lemma Subsequence_refl {A : Type} (l : list A) : Subsequence l l.
Proof.
  induction l as [|x l IH].
  - apply sub_nil.
  - apply sub_keep. exact IH.
Qed.

Lemma Subsequence_trans {A : Type} (l1 l2 l3 : list A) :
  Subsequence l1 l2 -> Subsequence l2 l3 -> Subsequence l1 l3.
Proof.
  intros H12 H23. revert l1 H12.
  induction H23 as [|x l2 l3 H IH|x l2 l3 H IH]; intros l1 H12.
  - exact H12.
  - apply sub_skip. apply IH. exact H12.
  - inversion H12; subst.
    + apply sub_skip. apply IH. assumption.
    + apply sub_keep. apply IH. assumption.
Qed.

Lemma filter_filter {A : Type} (p q : A -> bool) (l : list A) :
  filter p (filter q l) = filter (fun x => q x && p x) l.
Proof.
  induction l as [|x l IH]; simpl; [reflexivity|].
  destruct (q x); simpl; [destruct (p x)|]; rewrite IH; reflexivity.
Qed.

Lemma filter_all {A : Type} (p : A -> bool) (l : list A) :
  (forall x, In x l -> p x = true) -> filter p l = l.
Proof.
  induction l as [|x l IH]; simpl; intros H; [reflexivity|].
  rewrite (H x (or_introl eq_refl)). f_equal. apply IH. intros y Hy. apply H. right. exact Hy.
Qed.

(** ** The Faulty-Interval Excluder *)

Lemma exclude_interval_filter (machine : string) (metrics : list MetricRecord)
    (iv : FaultyInterval) :
  exclude_interval machine metrics iv =
  filter (fun r => negb (text_eq (fi_machine_id iv) machine && faulty_mask iv r)) metrics.
Proof.
  unfold exclude_interval. destruct (text_eq (fi_machine_id iv) machine); simpl.
  - reflexivity.
  - symmetry. apply filter_all. reflexivity.
Qed.

Lemma filter_faulty_intervals_filter (faulty : list FaultyInterval)
    (metrics : list MetricRecord) (machine : string) :
  filter_faulty_intervals faulty metrics machine =
  filter (fun r => negb (excluded machine faulty r)) metrics.
Proof.
  unfold filter_faulty_intervals. revert metrics.
  induction faulty as [|iv faulty IH]; intros metrics; simpl.
  - symmetry. apply filter_all. reflexivity.
  - rewrite IH, exclude_interval_filter, filter_filter.
    apply filter_ext. intros r. rewrite negb_orb. reflexivity.
Qed.

Lemma excluded_true (machine : string) (faulty : list FaultyInterval) (r : MetricRecord) :
  excluded machine faulty r = true <->
  exists iv, In iv faulty /\ fi_machine_id iv = Some machine /\ in_closed_range iv r.
Proof.
  unfold excluded. rewrite existsb_exists.
  split; intros (iv & Hin & H); exists iv; split; try exact Hin.
  - apply andb_true_iff in H. rewrite text_eq_true, faulty_mask_true in H. exact H.
  - apply andb_true_iff. rewrite text_eq_true, faulty_mask_true. exact H.
Qed.

Lemma excluded_same_machine (machine : string) (faulty : list FaultyInterval)
    (r : MetricRecord) :
  excluded machine (filter (fun iv => text_eq (fi_machine_id iv) machine) faulty) r =
  excluded machine faulty r.
Proof.
  unfold excluded. induction faulty as [|iv faulty IH]; simpl; [reflexivity|].
  destruct (text_eq (fi_machine_id iv) machine) eqn:E; simpl.
  - rewrite E, IH. reflexivity.
  - exact IH.
Qed.

(** C1. The Faulty-Interval Excluder removes exactly the metric rows whose
    timestamp lies in the closed range of at least one interval of the given
    machine: its result is the input filtered by the negation of the union of
    the matching ranges, a row survives if and only if no interval of the
    machine covers it, intervals of other machines play no part, an empty
    interval table leaves the metrics unchanged, and an interval whose two
    bounds are the same instant removes only the rows with that timestamp. *)
Theorem faulty_exclusion_is_set_difference
    (faulty : list FaultyInterval) (metrics : list MetricRecord) (machine : string) :
  filter_faulty_intervals faulty metrics machine =
    filter (fun r => negb (excluded machine faulty r)) metrics
  /\ (forall r,
        In r (filter_faulty_intervals faulty metrics machine) <->
        In r metrics /\
        ~ exists iv, In iv faulty /\ fi_machine_id iv = Some machine /\
                     in_closed_range iv r)
  /\ filter_faulty_intervals
       (filter (fun iv => text_eq (fi_machine_id iv) machine) faulty) metrics machine =
     filter_faulty_intervals faulty metrics machine
  /\ filter_faulty_intervals [] metrics machine = metrics
  /\ (forall (t : instant) r,
        In r (filter_faulty_intervals
                [{| fi_machine_id := Some machine;
                    start_time := Some t; end_time := Some t |}] metrics machine) <->
        In r metrics /\ timestamp r <> Some t).
Proof.
  split; [apply filter_faulty_intervals_filter|].
  split; [|split; [|split]].
  - intros r. rewrite filter_faulty_intervals_filter, filter_In, negb_true_iff.
    rewrite <- excluded_true, not_true_iff_false. reflexivity.
  - rewrite !filter_faulty_intervals_filter. apply filter_ext.
    intros r. rewrite excluded_same_machine. reflexivity.
  - reflexivity.
  - intros t r. rewrite filter_faulty_intervals_filter, filter_In, negb_true_iff.
    rewrite <- not_true_iff_false, excluded_true.
    split; intros [Hin H]; (split; [exact Hin|]).
    + intros Ht. apply H. eexists. split; [left; reflexivity|].
      split; [reflexivity|]. exists t, t, t. simpl. repeat split; auto; lia.
    + intros (iv & [<- | []] & _ & (t' & s & e & Ht & [= <-] & [= <-] & Hle)).
      apply H. rewrite Ht. f_equal. lia.
Qed.

(** C9. The output of the Faulty-Interval Excluder is a subsequence of the
    metrics it is given: the surviving rows are rows of the input, unaltered,
    none twice, in their original relative order. *)
Theorem faulty_exclusion_subsequence
    (faulty : list FaultyInterval) (metrics : list MetricRecord) (machine : string) :
  Subsequence (filter_faulty_intervals faulty metrics machine) metrics.
Proof.
  rewrite filter_faulty_intervals_filter. apply filter_Subsequence.
Qed.

(** C10. A faulty interval whose start or end is the missing instant excludes
    no metric row: its turn of the loop returns the metrics as they were, and
    the Excluder computes (it is a total function) the same table with the
    interval as without it, wherever the interval stands in the table. *)
Theorem null_bound_interval_is_ignored
    (iv : FaultyInterval) (before after : list FaultyInterval)
    (metrics : list MetricRecord) (machine : string) :
  start_time iv = None \/ end_time iv = None ->
  exclude_interval machine metrics iv = metrics
  /\ filter_faulty_intervals (before ++ iv :: after) metrics machine =
     filter_faulty_intervals (before ++ after) metrics machine.
Proof.
  intros Hnull. split.
  - rewrite exclude_interval_filter. apply filter_all.
    intros r _. rewrite (faulty_mask_null_bound iv r Hnull), andb_false_r. reflexivity.
  - rewrite !filter_faulty_intervals_filter. apply filter_ext.
    intros r. unfold excluded. rewrite !existsb_app. simpl.
    rewrite (faulty_mask_null_bound iv r Hnull), andb_false_r. reflexivity.
Qed.

Lemma null_bound_interval_is_ignored_witness :
  (start_time sample_open_interval = None \/ end_time sample_open_interval = None)
  /\ exclude_interval "M1" sample_metrics sample_open_interval = sample_metrics
  /\ filter_faulty_intervals
       (scenario_intervals sample_day ++ sample_open_interval :: scenario_intervals 0)
       sample_metrics "M1" =
     filter_faulty_intervals
       (scenario_intervals sample_day ++ scenario_intervals 0) sample_metrics "M1".
Proof.
  split.
  - left. reflexivity.
  - apply (null_bound_interval_is_ignored sample_open_interval
             (scenario_intervals sample_day) (scenario_intervals 0)
             sample_metrics "M1").
    left. reflexivity.
Defined.

(** ** The Time-Window Filter *)

Lemma in_window_true (machine : string) (s e : instant) (r : MetricRecord) :
  in_window machine s e r = true <->
  machine_id r = Some machine /\ exists t, timestamp r = Some t /\ s <= t <= e.
Proof.
  unfold in_window. rewrite !andb_true_iff, text_eq_true, ts_ge_true, ts_le_true.
  split.
  - intros [[Hm (t & b & Ht & [= <-] & Hge)] (t' & b' & Ht' & [= <-] & Hle)].
    rewrite Ht in Ht'. injection Ht' as <-.
    split; [exact Hm|]. exists t. split; [exact Ht | lia].
  - intros [Hm (t & Ht & Hge & Hle)]. repeat split.
    + exact Hm.
    + exists t, s. auto.
    + exists t, e. auto.
Qed.

(** C2. A row is kept by the Time-Window Filter if and only if it is a row of
    the input whose machine is exactly the target machine and whose timestamp
    lies between the two bounds, both included; a row with a missing
    timestamp is never kept; the kept rows stand in their input order. *)
Theorem time_window_filter_correct
    (cooking : list MetricRecord) (machine : string) (s e : instant) :
  (forall r,
     In r (filter_cooking_data cooking machine s e) <->
     In r cooking /\ machine_id r = Some machine /\
     exists t, timestamp r = Some t /\ s <= t <= e)
  /\ (forall r, timestamp r = None ->
                ~ In r (filter_cooking_data cooking machine s e))
  /\ Subsequence (filter_cooking_data cooking machine s e) cooking.
Proof.
  unfold filter_cooking_data. split; [|split].
  - intros r. rewrite filter_In, in_window_true. reflexivity.
  - intros r Hnull Hin. apply filter_In in Hin. destruct Hin as [_ Hw].
    apply in_window_true in Hw. destruct Hw as [_ (t & Ht & _)].
    rewrite Hnull in Ht. discriminate.
  - apply filter_Subsequence.
Qed.

(** ** The Batch Join *)

Lemma key_eqb_true (x y : option string) : key_eqb x y = true <-> x = y.
Proof.
  destruct x as [a|], y as [b|]; simpl; try (split; [discriminate | intros [=]]).
  - rewrite String.eqb_eq. split; [intros -> | intros [= ->]]; reflexivity.
  - split; reflexivity.
Qed.

Lemma matches_unique (m : MetricRecord) (registry : list BatchRegistryEntry) :
  NoDup (map br_batch_id registry) ->
  List.length (filter (matches m) registry) =
  if has_match registry m then 1%nat else 0%nat.
Proof.
  unfold has_match. induction registry as [|b registry IH]; simpl; intros Hnd.
  - reflexivity.
  - inversion Hnd as [|k ks Hnotin Hnd']; subst.
    destruct (matches m b) eqn:E; simpl.
    + f_equal. rewrite (IH Hnd').
      destruct (existsb (matches m) registry) eqn:E'; [|reflexivity].
      exfalso. apply Hnotin. apply existsb_exists in E'.
      destruct E' as (b' & Hin & Hb'). apply in_map_iff. exists b'.
      split; [|exact Hin]. unfold matches in E, Hb'.
      apply key_eqb_true in E. apply key_eqb_true in Hb'. congruence.
    + apply IH. exact Hnd'.
Qed.

Lemma pd_merge_In (metrics : list MetricRecord) (registry : list BatchRegistryEntry)
    (j : MergedRow) :
  In j (pd_merge metrics registry) <->
  exists m b, In m metrics /\ In b registry /\ batch_id m = br_batch_id b /\
              j = join_row m b.
Proof.
  unfold pd_merge. rewrite in_flat_map. split.
  - intros (m & Hm & Hj). apply in_map_iff in Hj. destruct Hj as (b & <- & Hb).
    apply filter_In in Hb. destruct Hb as [Hb Hk]. apply key_eqb_true in Hk.
    exists m, b. auto.
  - intros (m & b & Hm & Hb & Hk & ->). exists m. split; [exact Hm|].
    apply in_map. apply filter_In. split; [exact Hb|]. apply key_eqb_true. exact Hk.
Qed.

Lemma pd_merge_unmatched (m : MetricRecord) (registry : list BatchRegistryEntry) :
  has_match registry m = false -> filter (matches m) registry = [].
Proof.
  unfold has_match. induction registry as [|b registry IH]; simpl; [reflexivity|].
  intros H. apply orb_false_iff in H. destruct H as [-> H]. apply IH. exact H.
Qed.

(** C4. When the batch identifiers of the registry are pairwise distinct,
    the joined table has as many rows as there are metric rows whose
    [batch_id] has a registry entry; the metric rows without one contribute
    nothing (joining only the matched rows gives the same table), and every
    joined row combines a metric row with a registry entry of the same
    [batch_id]. *)
Theorem batch_join_cardinality
    (metrics : list MetricRecord) (registry : list BatchRegistryEntry) :
  NoDup (map br_batch_id registry) ->
  List.length (pd_merge metrics registry) =
    List.length (filter (has_match registry) metrics)
  /\ pd_merge (filter (has_match registry) metrics) registry = pd_merge metrics registry
  /\ (forall j, In j (pd_merge metrics registry) <->
                exists m b, In m metrics /\ In b registry /\
                            batch_id m = br_batch_id b /\ j = join_row m b).
Proof.
  intros Hnd. split; [|split].
  - unfold pd_merge. induction metrics as [|m metrics IH]; simpl; [reflexivity|].
    rewrite length_app, length_map, (matches_unique m registry Hnd), IH.
    destruct (has_match registry m); reflexivity.
  - unfold pd_merge. induction metrics as [|m metrics IH]; simpl; [reflexivity|].
    destruct (has_match registry m) eqn:E; simpl.
    + rewrite IH. reflexivity.
    + rewrite IH, (pd_merge_unmatched m registry E). reflexivity.
  - intros j. apply pd_merge_In.
Qed.

(** ** The Hourly Aggregator *)

Lemma hour_pos : 0 < hour.
Proof. reflexivity. Qed.

Lemma floor_hour_spec (t : instant) :
  floor_hour t <= t < floor_hour t + hour /\ floor_hour t mod hour = 0.
Proof.
  unfold floor_hour. pose proof hour_pos as Hpos.
  pose proof (Z.mul_div_le t hour Hpos) as Hle.
  pose proof (Z.mul_succ_div_gt t hour Hpos) as Hgt.
  rewrite Z.mul_succ_r in Hgt. repeat split; try assumption.
  rewrite Z.mul_comm. apply Z_mod_mult.
Qed.

Lemma group_key_eqb_eq (k1 k2 : group_key) : group_key_eqb k1 k2 = true <-> k1 = k2.
Proof.
  destruct k1 as [b1 a1], k2 as [b2 a2]. unfold group_key_eqb. simpl.
  rewrite andb_true_iff, Z.eqb_eq, String.eqb_eq.
  split; [intros [-> ->]; reflexivity | intros [= -> ->]; auto].
Qed.

Lemma in_group_true (k : group_key) (r : MergedRow) :
  in_group k r = true <-> key_of r = Some k.
Proof.
  unfold in_group. destruct (key_of r) as [k'|].
  - rewrite group_key_eqb_eq. split; [intros -> | intros [= ->]]; reflexivity.
  - split; discriminate.
Qed.

Lemma key_of_Some (r : MergedRow) (b : instant) (a : string) :
  key_of r = Some (b, a) <->
  exists t, mr_timestamp r = Some t /\ floor_hour t = b /\ mr_arepa_type r = Some a.
Proof.
  unfold key_of. destruct (mr_timestamp r) as [t|], (mr_arepa_type r) as [a'|];
    try (split; [discriminate | intros (t' & H1 & _ & H2); discriminate]).
  split.
  - intros [= <- <-]. exists t. auto.
  - intros (t' & [= <-] & <- & [= <-]). reflexivity.
Qed.

Lemma row_keys_In (merged : list MergedRow) (k : group_key) :
  In k (row_keys merged) <-> exists r, In r merged /\ key_of r = Some k.
Proof.
  induction merged as [|r merged IH]; simpl.
  - split; [intros [] | intros (r & [] & _)].
  - destruct (key_of r) as [k'|] eqn:E; simpl; rewrite IH; split.
    + intros [<- | (r' & Hin & Hk)]; [exists r | exists r']; auto.
    + intros (r' & [<- | Hin] & Hk); [left; congruence | right; exists r'; auto].
    + intros (r' & Hin & Hk). exists r'. auto.
    + intros (r' & [<- | Hin] & Hk); [congruence | exists r'; auto].
Qed.

Lemma existsb_group_key (k : group_key) (ks : list group_key) :
  existsb (group_key_eqb k) ks = true <-> In k ks.
Proof.
  rewrite existsb_exists. split.
  - intros (k' & Hin & Hk). apply group_key_eqb_eq in Hk. subst. exact Hin.
  - intros Hin. exists k. split; [exact Hin | apply group_key_eqb_eq; reflexivity].
Qed.

Lemma distinct_In (ks : list group_key) (k : group_key) :
  In k (distinct ks) <-> In k ks.
Proof.
  induction ks as [|k0 ks IH]; simpl; [reflexivity|].
  destruct (existsb (group_key_eqb k0) ks) eqn:E; simpl; rewrite IH.
  - apply existsb_group_key in E. split; [auto | intros [<- | H]; assumption].
  - reflexivity.
Qed.

Lemma distinct_NoDup (ks : list group_key) : NoDup (distinct ks).
Proof.
  induction ks as [|k0 ks IH]; simpl; [constructor|].
  destruct (existsb (group_key_eqb k0) ks) eqn:E; [exact IH|].
  constructor; [|exact IH].
  rewrite distinct_In, <- existsb_group_key, E. discriminate.
Qed.

Lemma insert_key_Permutation (k : group_key) (ks : list group_key) :
  Permutation (insert_key k ks) (k :: ks).
Proof.
  induction ks as [|h ks IH]; simpl; [reflexivity|].
  destruct (group_key_leb k h); [reflexivity|].
  rewrite IH. apply perm_swap.
Qed.

Lemma sort_keys_Permutation (ks : list group_key) : Permutation (sort_keys ks) ks.
Proof.
  induction ks as [|k ks IH]; simpl; [reflexivity|].
  rewrite insert_key_Permutation, IH. reflexivity.
Qed.

Lemma groups_NoDup (merged : list MergedRow) : NoDup (groups merged).
Proof.
  unfold groups. eapply Permutation_NoDup.
  - symmetry. apply sort_keys_Permutation.
  - apply distinct_NoDup.
Qed.

Lemma groups_In (merged : list MergedRow) (k : group_key) :
  In k (groups merged) <-> exists r, In r merged /\ key_of r = Some k.
Proof.
  unfold groups. rewrite <- row_keys_In, <- (distinct_In (row_keys merged)). split.
  - apply Permutation_in. apply sort_keys_Permutation.
  - apply Permutation_in. symmetry. apply sort_keys_Permutation.
Qed.

Lemma output_keys (merged : list MergedRow) :
  map (fun o => (ha_timestamp o, ha_arepa_type o))
      (group_by_hourly_average_cooking_metrics merged) = groups merged.
Proof.
  unfold group_by_hourly_average_cooking_metrics. rewrite map_map. simpl.
  rewrite <- (map_id (groups merged)) at 2. apply map_ext. intros [b a]. reflexivity.
Qed.

Lemma group_key_leb_total (k1 k2 : group_key) :
  group_key_leb k1 k2 = false -> group_key_leb k2 k1 = true.
Proof.
  destruct k1 as [b1 a1], k2 as [b2 a2]. unfold group_key_leb. simpl.
  intros H. apply orb_false_iff in H. destruct H as [Hlt Heq].
  apply Z.ltb_ge in Hlt.
  destruct (Z.eqb_spec b1 b2) as [-> | Hne]; simpl in Heq.
  - rewrite Z.ltb_irrefl, Z.eqb_refl. simpl.
    destruct (String.leb_total a1 a2) as [H | H]; [congruence | exact H].
  - assert (Hlt' : b2 < b1) by lia. apply Z.ltb_lt in Hlt'. rewrite Hlt'. reflexivity.
Qed.

Lemma insert_key_Sorted (k : group_key) (ks : list group_key) :
  Sorted (fun k1 k2 => group_key_leb k1 k2 = true) ks ->
  Sorted (fun k1 k2 => group_key_leb k1 k2 = true) (insert_key k ks).
Proof.
  induction ks as [|h ks IH]; simpl; intros Hs.
  - repeat constructor.
  - destruct (group_key_leb k h) eqn:E.
    + constructor; [exact Hs | constructor; exact E].
    + inversion Hs as [|h' ks' Hs' Hhd]; subst.
      constructor; [apply IH; exact Hs'|].
      destruct ks as [|h2 ks]; simpl.
      * constructor. apply group_key_leb_total. exact E.
      * destruct (group_key_leb k h2).
        -- constructor. apply group_key_leb_total. exact E.
        -- inversion Hhd; subst. constructor. assumption.
Qed.

(** The output rows stand in the order of their (bucket, type) labels. *)
Lemma groups_Sorted (merged : list MergedRow) :
  Sorted (fun k1 k2 => group_key_leb k1 k2 = true) (groups merged).
Proof.
  unfold groups. induction (distinct (row_keys merged)) as [|k ks IH]; simpl.
  - constructor.
  - apply insert_key_Sorted. exact IH.
Qed.










(** ** The Type Filter *)

Lemma filter_by_arepa_type_In (tbl : list HourlyAggregate) (t : string)
    (r : HourlyAggregate) :
  In r (filter_by_arepa_type tbl t) <-> In r tbl /\ ha_arepa_type r = t.
Proof.
  unfold filter_by_arepa_type. rewrite filter_In, String.eqb_eq. reflexivity.
Qed.

Lemma filter_by_arepa_type_absent (tbl : list HourlyAggregate) (t : string) :
  (forall r, In r tbl -> ha_arepa_type r <> t) -> filter_by_arepa_type tbl t = [].
Proof.
  unfold filter_by_arepa_type. induction tbl as [|r tbl IH]; simpl; intros H.
  - reflexivity.
  - destruct (String.eqb_spec (ha_arepa_type r) t) as [E | _].
    + exfalso. apply (H r); [left; reflexivity | exact E].
    + apply IH. intros r' Hin. apply H. right. exact Hin.
Qed.

(** C7. The Type Filter is idempotent: filtering by [t] a table already
    filtered by [t] returns that table.  A row is kept exactly when its type
    is the very string [t]: a type that differs from [t] in the case of a
    letter or by a trailing blank is not kept. *)
Theorem type_filter_idempotent (tbl : list HourlyAggregate) (t : string) :
  filter_by_arepa_type (filter_by_arepa_type tbl t) t = filter_by_arepa_type tbl t
  /\ (forall r, In r (filter_by_arepa_type tbl t) <-> In r tbl /\ ha_arepa_type r = t)
  /\ (forall (b : instant) (m1 m2 : float),
        filter_by_arepa_type
          [{| ha_timestamp := b; ha_arepa_type := "classic";
              ha_metric_1 := m1; ha_metric_2 := m2 |}] "Classic" = []
        /\ filter_by_arepa_type
          [{| ha_timestamp := b; ha_arepa_type := "classic";
              ha_metric_1 := m1; ha_metric_2 := m2 |}] "classic " = []
        /\ filter_by_arepa_type
          [{| ha_timestamp := b; ha_arepa_type := "classic";
              ha_metric_1 := m1; ha_metric_2 := m2 |}] "classic" =
          [{| ha_timestamp := b; ha_arepa_type := "classic";
              ha_metric_1 := m1; ha_metric_2 := m2 |}]).
Proof.
  split; [|split].
  - unfold filter_by_arepa_type. rewrite filter_filter. apply filter_ext.
    intros r. apply andb_diag.
  - intros r. apply filter_by_arepa_type_In.
  - intros b m1 m2. repeat split.
Qed.

(** ** The Loader *)

Lemma lookup_map_column (f : cell -> cell) (c col : string) (row : raw_row) :
  lookup col (map_column f c row) =
  if String.eqb col c then option_map f (lookup col row) else lookup col row.
Proof.
  induction row as [|[name v] row IH]; simpl.
  - destruct (String.eqb col c); reflexivity.
  - destruct (String.eqb_spec name c) as [-> | Hne]; simpl.
    + destruct (String.eqb_spec c col) as [-> | Hne'].
      * rewrite String.eqb_refl. reflexivity.
      * exact IH.
    + destruct (String.eqb_spec name col) as [-> | Hne'].
      * destruct (String.eqb_spec col c) as [-> | _]; [contradiction | reflexivity].
      * exact IH.
Qed.


Lemma coerce_is_instant (conv : conversion) (c : cell) :
  coerce conv c = NaT \/ exists t, coerce conv c = Timestamp t.
Proof.
  unfold coerce. destruct (convert conv c) as [t|]; [right; exists t|left]; reflexivity.
Qed.



Section Loader.

Variable pd_import_csv : string -> string -> string -> result DataFrame.
Variable pd_to_datetime : list cell -> result conversion.

Lemma coerce_column_Return (df df' : DataFrame) (col : string) :
  coerce_column pd_to_datetime df col = Return df' ->
  (has_column df col = false /\ df' = df) \/
  (has_column df col = true /\
   exists conv,
     pd_to_datetime (column_values df col) = Return conv /\
     df' = {| columns := columns df;
              aware_columns := mark_aware col (tz_aware conv) (aware_columns df);
              rows := map (map_column (coerce conv) col) (rows df) |}).
Proof.
  unfold coerce_column. destruct (has_column df col).
  - destruct (pd_to_datetime (column_values df col)) as [conv|e]; simpl; [|discriminate].
    intros [= <-]. right. split; [reflexivity|]. exists conv. auto.
  - intros [= <-]. left. auto.
Qed.

Lemma coerce_column_columns (df df' : DataFrame) (col : string) :
  coerce_column pd_to_datetime df col = Return df' -> columns df' = columns df.
Proof.
  intros H. apply coerce_column_Return in H.
  destruct H as [[_ ->] | [_ (conv & _ & ->)]]; reflexivity.
Qed.



Lemma coerce_columns_columns (date_cols : list string) (df loaded : DataFrame) :
  coerce_columns pd_to_datetime date_cols df = Return loaded ->
  columns loaded = columns df.
Proof.
  revert df. induction date_cols as [|c rest IH]; intros df; simpl.
  - intros [= <-]. reflexivity.
  - destruct (coerce_column pd_to_datetime df c) as [df1|e] eqn:E; simpl; [|discriminate].
    intros H. rewrite (IH df1 H). apply (coerce_column_columns df df1 c E).
Qed.




Lemma load_dataset_Return (file_path : string) (date_cols : list string)
    (delimiter decimal_separator : string) (loaded : DataFrame) :
  load_dataset pd_import_csv pd_to_datetime file_path date_cols
               delimiter decimal_separator = Return loaded ->
  exists df,
    pd_import_csv file_path delimiter decimal_separator = Return df /\
    coerce_columns pd_to_datetime date_cols df = Return loaded.
Proof.
  unfold load_dataset.
  destruct (pd_import_csv file_path delimiter decimal_separator) as [df | e].
  - intros H. exists df. auto.
  - destruct e; discriminate.
Qed.


End Loader.


(** The sample environment: a missing file, a file whose timestamps mix
    offsets, and the file of the scenario. *)
Example load_of_sample_files :
  load_dataset sample_files sample_to_datetime "nowhere.csv" date_columns ";" "," =
    Raise (FileNotFoundError "nowhere.csv")
  /\ load_dataset sample_files sample_to_datetime "input_dataset/mixed_tz.csv"
       date_columns ";" "," = Raise (ValueError "Mixed timezones detected")
  /\ load_dataset sample_files sample_to_datetime "input_dataset/cooking_metrics.csv"
       date_columns ";" "," = Return (loaded_cooking sample_day).
Proof. repeat split; vm_compute; reflexivity. Qed.

(** ** The stages on frames *)

Lemma traverse_In {A B : Type} (f : A -> result B) (l : list A) (l' : list B) :
  traverse f l = Return l' ->
  forall y, In y l' -> exists x, In x l /\ f x = Return y.
Proof.
  revert l'. induction l as [|a l IH]; intros l'; simpl.
  - intros [= <-] y [].
  - destruct (f a) as [b|e] eqn:E; simpl; [|discriminate].
    destruct (traverse f l) as [bs|e] eqn:E'; simpl; [|discriminate].
    intros [= <-] y [<- | Hy].
    + exists a. auto.
    + destruct (IH bs eq_refl y Hy) as (x & Hx & Hfx). exists x. auto.
Qed.

Lemma traverse_total {A B : Type} (f : A -> result B) (l : list A) :
  (forall x, In x l -> exists y, f x = Return y) ->
  exists l', traverse f l = Return l'.
Proof.
  induction l as [|a l IH]; simpl; intros H.
  - exists []. reflexivity.
  - destruct (H a (or_introl eq_refl)) as (b & ->). simpl.
    destruct IH as (bs & ->); [intros x Hx; apply H; right; exact Hx|].
    simpl. exists (b :: bs). reflexivity.
Qed.

Lemma require_Return (df : DataFrame) (col : string) :
  has_column df col = true -> require df col = Return tt.
Proof. intros H. unfold require. rewrite H. reflexivity. Qed.

Lemma metric_records_machine (df : DataFrame) (cooking_rows : list MetricRecord) :
  metric_records df = Return cooking_rows ->
  forall r, In r cooking_rows ->
    exists row, In row (rows df) /\ machine_id r = machine_of (get "machine_id" row).
Proof.
  intros H r Hr. destruct (traverse_In _ _ _ H r Hr) as (row & Hrow & Hdec).
  exists row. split; [exact Hrow|]. unfold metric_record in Hdec.
  destruct (instant_of "timestamp" (get "timestamp" row)); simpl in Hdec; [|discriminate].
  injection Hdec as <-. reflexivity.
Qed.

Lemma metric_records_total (df : DataFrame) :
  forallb is_instant (column_values df "timestamp") = true ->
  exists cooking_rows, metric_records df = Return cooking_rows.
Proof.
  intros H. apply traverse_total. intros row Hrow. unfold metric_record.
  rewrite forallb_forall in H.
  assert (Hc : is_instant (get "timestamp" row) = true).
  { apply H. unfold column_values. apply in_map. exact Hrow. }
  destruct (get "timestamp" row); try discriminate; simpl; eexists; reflexivity.
Qed.

Lemma window_stage_Return (cooking : DataFrame) (machine : string)
    (sd ed : datetime) (filtered : list MetricRecord) :
  window_stage cooking machine sd ed = Return filtered ->
  exists cooking_rows s e,
    metric_records cooking = Return cooking_rows /\
    comparable cooking "timestamp" sd = Return s /\
    comparable cooking "timestamp" ed = Return e /\
    filtered = filter_cooking_data cooking_rows machine s e.
Proof.
  unfold window_stage.
  destruct (require cooking "machine_id"); simpl; [|discriminate].
  destruct (require cooking "timestamp"); simpl; [|discriminate].
  destruct (metric_records cooking) as [cooking_rows|]; simpl; [|discriminate].
  destruct (comparable cooking "timestamp" sd) as [s|]; simpl; [|discriminate].
  destruct (comparable cooking "timestamp" ed) as [e|]; simpl; [|discriminate].
  intros [= <-]. exists cooking_rows, s, e. auto.
Qed.

Lemma comparable_naive (df : DataFrame) (col : string) (bound : datetime) (t : instant) :
  comparable df col bound = Return t -> is_aware_column df col = false ->
  bound = Naive t.
Proof.
  unfold comparable. intros H Hnaive. rewrite Hnaive in H.
  destruct bound; [injection H as <-; reflexivity | discriminate].
Qed.

Lemma exclude_interval_In (machine : string) (filtered : list MetricRecord)
    (iv : FaultyInterval) (r : MetricRecord) :
  In r (exclude_interval machine filtered iv) -> In r filtered.
Proof.
  rewrite exclude_interval_filter, filter_In. tauto.
Qed.

Lemma exclusion_loop_In (faulty : DataFrame) (aware : bool) (machine : string)
    (faulty_rows : list raw_row) (filtered excluded : list MetricRecord) :
  exclusion_loop faulty aware machine faulty_rows filtered = Return excluded ->
  forall r, In r excluded -> In r filtered.
Proof.
  revert filtered. induction faulty_rows as [|row rest IH]; intros filtered; simpl.
  - intros [= <-] r Hr. exact Hr.
  - destruct (exclude_row faulty aware machine filtered row) as [f1|] eqn:E; simpl;
      [|discriminate].
    intros H r Hr. specialize (IH f1 H r Hr).
    unfold exclude_row in E.
    destruct (require faulty "machine_id"); simpl in E; [|discriminate].
    destruct (text_eq (machine_of (get "machine_id" row)) machine).
    + destruct (interval_bound faulty aware "start_time" row); simpl in E; [|discriminate].
      destruct (interval_bound faulty aware "end_time" row); simpl in E; [|discriminate].
      injection E as <-. apply exclude_interval_In in IH. exact IH.
    + injection E as <-. exact IH.
Qed.

Lemma interval_bound_Return (faulty : DataFrame) (col : string) (row : raw_row) :
  has_column faulty col = true ->
  is_instant (get col row) = true ->
  is_aware_column faulty col = false ->
  interval_bound faulty false col row = Return (bound_of (get col row)).
Proof.
  intros Hcol Hinst Hnaive. unfold interval_bound.
  rewrite (require_Return faulty col Hcol). simpl. rewrite Hnaive.
  destruct (get col row); try discriminate; reflexivity.
Qed.

(** On a frame of intervals that has its columns, naive instants in them,
    and for metrics with naive timestamps, the loop of the Excluder returns
    what the Excluder computes on the typed intervals. *)
Lemma exclusion_stage_schema (faulty cooking : DataFrame)
    (filtered : list MetricRecord) (machine : string) :
  faulty_schema faulty = true ->
  is_aware_column cooking "timestamp" = false ->
  exclusion_stage faulty cooking filtered machine =
  Return (filter_faulty_intervals (map faulty_interval (rows faulty)) filtered machine).
Proof.
  unfold faulty_schema. rewrite !andb_true_iff, !negb_true_iff, !forallb_forall.
  intros [[[[[[Hm Hs] He] His] Hie] Hns] Hne] Hnaive.
  unfold exclusion_stage, filter_faulty_intervals. rewrite Hnaive.
  assert (Hrows : forall row, In row (rows faulty) ->
            is_instant (get "start_time" row) = true /\
            is_instant (get "end_time" row) = true).
  { intros row Hrow. split; [apply His | apply Hie]; unfold column_values;
      apply in_map; exact Hrow. }
  revert filtered Hrows. induction (rows faulty) as [|row rest IH]; intros filtered Hrows.
  - reflexivity.
  - simpl. destruct (Hrows row (or_introl eq_refl)) as [H1 H2].
    assert (Hstep : exclude_row faulty false machine filtered row =
                    Return (exclude_interval machine filtered (faulty_interval row))).
    { unfold exclude_row. rewrite (require_Return faulty _ Hm). simpl.
      destruct (text_eq (machine_of (get "machine_id" row)) machine) eqn:E.
      - rewrite (interval_bound_Return faulty _ row Hs H1 Hns). simpl.
        rewrite (interval_bound_Return faulty _ row He H2 Hne). simpl.
        reflexivity.
      - unfold exclude_interval, faulty_interval. simpl. rewrite E. reflexivity. }
    rewrite Hstep. simpl. apply IH. intros r Hr. apply Hrows. right. exact Hr.
Qed.

Lemma merge_stage_Return (cooking registry : DataFrame)
    (filtered : list MetricRecord) (merged : list MergedRow) :
  merge_stage cooking registry filtered = Return merged ->
  merged = pd_merge filtered (registry_records registry).
Proof.
  unfold merge_stage.
  destruct (require registry "batch_id"); simpl; [|discriminate].
  destruct (require cooking "batch_id"); simpl; [|discriminate].
  destruct (check_merge_keys cooking registry filtered); simpl; [|discriminate].
  intros [= <-]. reflexivity.
Qed.

Lemma aggregation_stage_Return (cooking registry : DataFrame)
    (merged : list MergedRow) (hourly : list HourlyAggregate) :
  aggregation_stage cooking registry merged = Return hourly ->
  hourly = group_by_hourly_average_cooking_metrics merged /\
  is_aware_column cooking "timestamp" = false.
Proof.
  unfold aggregation_stage.
  destruct (merged_column cooking registry "timestamp"); simpl; [|discriminate].
  destruct (is_aware_column cooking "timestamp"); simpl; [discriminate|].
  destruct (merged_column registry cooking "arepa_type"); simpl; [|discriminate].
  destruct (forallb is_text (column_values registry "arepa_type")); simpl;
    [|discriminate].
  destruct (merged_column cooking registry "metric_1"); simpl; [|discriminate].
  destruct (merged_column cooking registry "metric_2"); simpl; [|discriminate].
  destruct (numeric_column cooking "metric_1"); simpl; [|discriminate].
  destruct (numeric_column cooking "metric_2"); simpl; [|discriminate].
  intros [= <-]. auto.
Qed.

Lemma aggregation_stage_schema (cooking registry : DataFrame)
    (merged : list MergedRow) :
  cooking_schema cooking = true -> registry_schema registry = true ->
  aggregation_stage cooking registry merged =
  Return (group_by_hourly_average_cooking_metrics merged).
Proof.
  unfold cooking_schema, registry_schema.
  rewrite !andb_true_iff, !negb_true_iff.
  intros [[[[[[[[[[Hm Ht] Hb] H1] H2] Ha] Hi] Hn] Hd1] Hd2] _].
  intros [[[[[[Rb Ra] Rt] R1] R2] Rtext] _].
  unfold aggregation_stage, merged_column, numeric_column.
  rewrite Ht, Rt, Hn, Ra, Ha, Rtext, H1, R1, H2, R2. simpl.
  destruct (column_dtype cooking "metric_1"); try discriminate.
  destruct (column_dtype cooking "metric_2"); try discriminate.
  reflexivity.
Qed.

(** ** Runs of the whole pipeline *)

Section Runs.

Variable pd_import_csv : string -> string -> string -> result DataFrame.
Variable pd_to_datetime : list cell -> result conversion.
Variable fromisoformat : string -> result datetime.

Lemma run_stages
    (cooking_path faulty_path batch_path machine arepa s_text e_text : string)
    (cooking faulty registry : DataFrame) (sd ed : datetime)
    (filtered excluded : list MetricRecord) (merged : list MergedRow)
    (hourly : list HourlyAggregate) :
  load_dataset pd_import_csv pd_to_datetime cooking_path date_columns ";" "," = Return cooking ->
  load_dataset pd_import_csv pd_to_datetime faulty_path date_columns ";" "," = Return faulty ->
  load_dataset pd_import_csv pd_to_datetime batch_path date_columns ";" "," = Return registry ->
  fromisoformat s_text = Return sd ->
  fromisoformat e_text = Return ed ->
  window_stage cooking machine sd ed = Return filtered ->
  exclusion_stage faulty cooking filtered machine = Return excluded ->
  merge_stage cooking registry excluded = Return merged ->
  aggregation_stage cooking registry merged = Return hourly ->
  generate_training_dataset pd_import_csv pd_to_datetime fromisoformat
    cooking_path faulty_path batch_path machine arepa s_text e_text =
  Return (filter_by_arepa_type hourly arepa).
Proof.
  intros Hc Hf Hb Hs He Hw Hx Hm Ha. unfold generate_training_dataset.
  rewrite Hc, Hf, Hb. simpl. rewrite Hs, He. simpl.
  rewrite Hw. simpl. rewrite Hx. simpl. rewrite Hm. simpl. rewrite Ha. reflexivity.
Qed.

Lemma run_inversion
    (cooking_path faulty_path batch_path machine arepa s_text e_text : string)
    (table : list HourlyAggregate) :
  generate_training_dataset pd_import_csv pd_to_datetime fromisoformat
    cooking_path faulty_path batch_path machine arepa s_text e_text = Return table ->
  exists cooking faulty registry sd ed filtered excluded merged hourly,
    fromisoformat s_text = Return sd /\ fromisoformat e_text = Return ed /\
    window_stage cooking machine sd ed = Return filtered /\
    exclusion_stage faulty cooking filtered machine = Return excluded /\
    merge_stage cooking registry excluded = Return merged /\
    aggregation_stage cooking registry merged = Return hourly /\
    table = filter_by_arepa_type hourly arepa.
Proof.
  unfold generate_training_dataset.
  destruct (load_dataset pd_import_csv pd_to_datetime cooking_path date_columns ";" ",")
    as [cooking | ?]; simpl; [|discriminate].
  destruct (load_dataset pd_import_csv pd_to_datetime faulty_path date_columns ";" ",")
    as [faulty | ?]; simpl; [|discriminate].
  destruct (load_dataset pd_import_csv pd_to_datetime batch_path date_columns ";" ",")
    as [registry | ?]; simpl; [|discriminate].
  destruct (fromisoformat s_text) as [sd | ?]; simpl; [|discriminate].
  destruct (fromisoformat e_text) as [ed | ?]; simpl; [|discriminate].
  destruct (window_stage cooking machine sd ed) as [filtered | ?] eqn:Hw;
    simpl; [|discriminate].
  destruct (exclusion_stage faulty cooking filtered machine) as [excluded | ?] eqn:Hx;
    simpl; [|discriminate].
  destruct (merge_stage cooking registry excluded) as [merged | ?] eqn:Hm;
    simpl; [|discriminate].
  destruct (aggregation_stage cooking registry merged) as [hourly | ?] eqn:Ha;
    simpl; [|discriminate].
  intros [= <-].
  exists cooking, faulty, registry, sd, ed, filtered, excluded, merged, hourly.
  repeat split; assumption.
Qed.

End Runs.

Lemma aggregate_types (merged : list MergedRow) (o : HourlyAggregate) :
  In o (group_by_hourly_average_cooking_metrics merged) ->
  exists r, In r merged /\ mr_arepa_type r = Some (ha_arepa_type o).
Proof.
  intros Hin.
  assert (Hk : In (ha_timestamp o, ha_arepa_type o) (groups merged)).
  { rewrite <- output_keys. apply in_map_iff. exists o. auto. }
  apply groups_In in Hk. destruct Hk as (r & Hr & Hk).
  apply key_of_Some in Hk. destruct Hk as (t & _ & _ & Ha). exists r. auto.
Qed.

(** C8. When the joined and the aggregated data of a run exist, that is when
    the three sources load, the two bounds of the window parse, and the
    window filter, the exclusion, the join and the aggregation return their
    tables, and no row of the joined table has the requested product type,
    the run ends without an exception and returns the table without rows:
    the Type Filter returns the empty table on the aggregates and nothing
    after it can raise. *)
Theorem absent_type_gives_empty_table
    (pd_import_csv : string -> string -> string -> result DataFrame)
    (pd_to_datetime : list cell -> result conversion)
    (fromisoformat : string -> result datetime)
    (cooking_path faulty_path batch_path machine arepa s_text e_text : string)
    (cooking faulty registry : DataFrame) (sd ed : datetime)
    (filtered excluded : list MetricRecord) (merged : list MergedRow)
    (hourly : list HourlyAggregate) :
  load_dataset pd_import_csv pd_to_datetime cooking_path date_columns ";" "," = Return cooking ->
  load_dataset pd_import_csv pd_to_datetime faulty_path date_columns ";" "," = Return faulty ->
  load_dataset pd_import_csv pd_to_datetime batch_path date_columns ";" "," = Return registry ->
  fromisoformat s_text = Return sd ->
  fromisoformat e_text = Return ed ->
  window_stage cooking machine sd ed = Return filtered ->
  exclusion_stage faulty cooking filtered machine = Return excluded ->
  merge_stage cooking registry excluded = Return merged ->
  aggregation_stage cooking registry merged = Return hourly ->
  (forall j, In j merged -> mr_arepa_type j <> Some arepa) ->
  generate_training_dataset pd_import_csv pd_to_datetime fromisoformat
    cooking_path faulty_path batch_path machine arepa s_text e_text = Return []
  /\ filter_by_arepa_type hourly arepa = [].
Proof.
  intros Hc Hf Hb Hs He Hw Hx Hm Ha Habsent.
  assert (Hempty : filter_by_arepa_type hourly arepa = []).
  { apply filter_by_arepa_type_absent. intros o Ho Heq.
    apply aggregation_stage_Return in Ha. destruct Ha as [-> _].
    apply aggregate_types in Ho. destruct Ho as (r & Hr & Hty).
    apply (Habsent r Hr). rewrite Hty, Heq. reflexivity. }
  split; [|exact Hempty].
  rewrite (run_stages pd_import_csv pd_to_datetime fromisoformat
             cooking_path faulty_path batch_path machine arepa s_text e_text
             cooking faulty registry sd ed filtered excluded merged hourly
             Hc Hf Hb Hs He Hw Hx Hm Ha).
  rewrite Hempty. reflexivity.
Qed.

(** ** The end-to-end scenario *)

Lemma clock_leb (d h m h' m' : Z) :
  (clock d h m <=? clock d h' m') = (h * 60 + m <=? h' * 60 + m').
Proof.
  unfold clock, day, hour, minute.
  destruct (Z.leb_spec (h * 60 + m) (h' * 60 + m'));
    [apply Z.leb_le | apply Z.leb_gt]; lia.
Qed.

Lemma floor_hour_clock (d h m : Z) :
  0 <= m < 60 -> floor_hour (clock d h m) = clock d h 0.
Proof.
  intros Hm. unfold floor_hour.
  assert (Hq : d * 24 + h = clock d h m / hour).
  { apply (Z.div_unique (clock d h m) hour (d * 24 + h) (m * minute)).
    - left. unfold hour, minute. lia.
    - unfold clock, day, hour, minute. lia. }
  rewrite <- Hq. unfold clock, day, hour, minute. lia.
Qed.

Section Scenario.

Variable pd_import_csv : string -> string -> string -> result DataFrame.
Variable pd_to_datetime : list cell -> result conversion.
Variable d : Z.

Lemma scenario_cooking_loads (path c1 c2 c3 : string) (conv : conversion) :
  pd_import_csv path ";"%string ","%string = Return (scenario_cooking c1 c2 c3) ->
  pd_to_datetime [Str c1; Str c2; Str c3] = Return conv ->
  reads_naive conv [(c1, clock d 10 15); (c2, clock d 10 45); (c3, clock d 11 5)] ->
  load_dataset pd_import_csv pd_to_datetime path date_columns ";" "," =
  Return (loaded_cooking d).
Proof.
  intros Hread Hconv [Hnaive Hall].
  inversion Hall as [|? ? H1 Hall1]; subst. inversion Hall1 as [|? ? H2 Hall2]; subst.
  inversion Hall2 as [|? ? H3 _]; subst.
  destruct conv as [aware convert]. simpl in Hnaive, H1, H2, H3. subst aware.
  unfold load_dataset. rewrite Hread.
  cbv -[clock].
  rewrite Hconv. cbv -[clock].
  rewrite H1, H2, H3. reflexivity.
Qed.

Lemma scenario_faulty_loads (path cs ce : string) (conv_s conv_e : conversion) :
  pd_import_csv path ";"%string ","%string = Return (scenario_faulty cs ce) ->
  pd_to_datetime [Str cs] = Return conv_s -> reads_naive conv_s [(cs, clock d 11 0)] ->
  pd_to_datetime [Str ce] = Return conv_e -> reads_naive conv_e [(ce, clock d 11 30)] ->
  load_dataset pd_import_csv pd_to_datetime path date_columns ";" "," =
  Return (loaded_faulty d).
Proof.
  intros Hread Hcs [Hns Hs] Hce [Hne He].
  inversion Hs as [|? ? H1 _]; subst. inversion He as [|? ? H2 _]; subst.
  destruct conv_s as [aware_s convert_s]. destruct conv_e as [aware_e convert_e].
  simpl in Hns, Hne, H1, H2. subst aware_s aware_e.
  unfold load_dataset. rewrite Hread.
  cbv -[clock].
  rewrite Hcs. cbv -[clock].
  rewrite H1.
  rewrite Hce. cbv -[clock].
  rewrite H2. reflexivity.
Qed.

Lemma scenario_registry_loads (path : string) :
  pd_import_csv path ";"%string ","%string = Return scenario_registry ->
  load_dataset pd_import_csv pd_to_datetime path date_columns ";" "," =
  Return scenario_registry.
Proof.
  intros Hread. unfold load_dataset. rewrite Hread. reflexivity.
Qed.

Lemma scenario_window :
  window_stage (loaded_cooking d) "M1" (Naive (clock d 10 0)) (Naive (clock d 12 0)) =
  Return (scenario_metrics d).
Proof.
  unfold window_stage, filter_cooking_data, in_window.
  cbn -[clock Z.leb]. rewrite !clock_leb. reflexivity.
Qed.

Lemma scenario_exclusion :
  exclusion_stage (loaded_faulty d) (loaded_cooking d) (scenario_metrics d) "M1" =
  Return [scenario_metric d 10 15 2 4; scenario_metric d 10 45 3 5].
Proof.
  unfold exclusion_stage. cbn -[clock Z.leb].
  unfold faulty_mask, scenario_metric. cbn -[clock Z.leb].
  rewrite !clock_leb. reflexivity.
Qed.

Lemma scenario_merge :
  merge_stage (loaded_cooking d) scenario_registry
    [scenario_metric d 10 15 2 4; scenario_metric d 10 45 3 5] =
  Return
    [ {| mr_machine_id := Some "M1"%string; mr_timestamp := Some (clock d 10 15);
         mr_batch_id := Some "B1"%string; mr_metric_1 := 2; mr_metric_2 := 4;
         mr_arepa_type := Some "classic"%string |};
      {| mr_machine_id := Some "M1"%string; mr_timestamp := Some (clock d 10 45);
         mr_batch_id := Some "B1"%string; mr_metric_1 := 3; mr_metric_2 := 5;
         mr_arepa_type := Some "classic"%string |} ].
Proof. reflexivity. Qed.

Lemma scenario_hourly :
  aggregation_stage (loaded_cooking d) scenario_registry
    [ {| mr_machine_id := Some "M1"%string; mr_timestamp := Some (clock d 10 15);
         mr_batch_id := Some "B1"%string; mr_metric_1 := 2; mr_metric_2 := 4;
         mr_arepa_type := Some "classic"%string |};
      {| mr_machine_id := Some "M1"%string; mr_timestamp := Some (clock d 10 45);
         mr_batch_id := Some "B1"%string; mr_metric_1 := 3; mr_metric_2 := 5;
         mr_arepa_type := Some "classic"%string |} ] =
  Return [ {| ha_timestamp := clock d 10 0; ha_arepa_type := "classic";
              ha_metric_1 := 2.5; ha_metric_2 := 4.5 |} ].
Proof.
  rewrite aggregation_stage_schema; [|reflexivity|reflexivity]. f_equal.
  unfold group_by_hourly_average_cooking_metrics, groups, aggregate, in_group, key_of.
  simpl. rewrite !floor_hour_clock by lia. simpl.
  unfold group_key_eqb. simpl. rewrite !Z.eqb_refl. simpl.
  rewrite !Z.eqb_refl. simpl. reflexivity.
Qed.

End Scenario.

(** C5. The run of the specification's scenario: three readings of machine
    M1 and batch B1 at 10:15, 10:45 and 11:05 of one day (whatever the day
    and the texts that spell the instants), one faulty interval of M1 from
    11:00 to 11:30, the registry entry (B1, classic), the window from 10:00
    to 12:00 and the requested type classic give exactly one row: the bucket
    of 10:00, type classic, metric_1 = 2.5 and metric_2 = 4.5. *)
Theorem end_to_end_scenario
    (pd_import_csv : string -> string -> string -> result DataFrame)
    (pd_to_datetime : list cell -> result conversion)
    (fromisoformat : string -> result datetime)
    (d : Z)
    (cooking_path faulty_path batch_path s_text e_text c1 c2 c3 cs ce : string)
    (conv_t conv_s conv_e : conversion) :
  pd_import_csv cooking_path ";"%string ","%string = Return (scenario_cooking c1 c2 c3) ->
  pd_import_csv faulty_path ";"%string ","%string = Return (scenario_faulty cs ce) ->
  pd_import_csv batch_path ";"%string ","%string = Return scenario_registry ->
  pd_to_datetime [Str c1; Str c2; Str c3] = Return conv_t ->
  reads_naive conv_t [(c1, clock d 10 15); (c2, clock d 10 45); (c3, clock d 11 5)] ->
  pd_to_datetime [Str cs] = Return conv_s ->
  reads_naive conv_s [(cs, clock d 11 0)] ->
  pd_to_datetime [Str ce] = Return conv_e ->
  reads_naive conv_e [(ce, clock d 11 30)] ->
  fromisoformat s_text = Return (Naive (clock d 10 0)) ->
  fromisoformat e_text = Return (Naive (clock d 12 0)) ->
  generate_training_dataset pd_import_csv pd_to_datetime fromisoformat
    cooking_path faulty_path batch_path "M1" "classic" s_text e_text =
  Return [ {| ha_timestamp := clock d 10 0; ha_arepa_type := "classic";
              ha_metric_1 := 2.5; ha_metric_2 := 4.5 |} ].
Proof.
  intros Hc Hf Hb Ht Hrt Hs Hrs He Hre Hstart Hend.
  rewrite (run_stages pd_import_csv pd_to_datetime fromisoformat
             cooking_path faulty_path batch_path "M1" "classic" s_text e_text
             (loaded_cooking d) (loaded_faulty d) scenario_registry
             (Naive (clock d 10 0)) (Naive (clock d 12 0))
             (scenario_metrics d)
             [scenario_metric d 10 15 2 4; scenario_metric d 10 45 3 5]
             _ _
             (scenario_cooking_loads _ _ d _ c1 c2 c3 conv_t Hc Ht Hrt)
             (scenario_faulty_loads _ _ d _ cs ce conv_s conv_e Hf Hs Hrs He Hre)
             (scenario_registry_loads _ _ _ Hb)
             Hstart Hend (scenario_window d) (scenario_exclusion d)
             (scenario_merge d) (scenario_hourly d)).
  reflexivity.
Qed.

Lemma end_to_end_scenario_witness :
  (sample_files "input_dataset/cooking_metrics.csv" ";" "," =
     Return (scenario_cooking "2024-01-01 10:15:00" "2024-01-01 10:45:00"
                              "2024-01-01 11:05:00")
   /\ sample_files "input_dataset/faulty_intervals.csv" ";" "," =
     Return (scenario_faulty "2024-01-01 11:00:00" "2024-01-01 11:30:00")
   /\ sample_files "input_dataset/batch_registry.csv" ";" "," = Return scenario_registry
   /\ sample_to_datetime [Str "2024-01-01 10:15:00"; Str "2024-01-01 10:45:00";
                          Str "2024-01-01 11:05:00"] = Return sample_conversion
   /\ reads_naive sample_conversion
        [("2024-01-01 10:15:00"%string, clock sample_day 10 15);
         ("2024-01-01 10:45:00"%string, clock sample_day 10 45);
         ("2024-01-01 11:05:00"%string, clock sample_day 11 5)]
   /\ sample_to_datetime [Str "2024-01-01 11:00:00"] = Return sample_conversion
   /\ reads_naive sample_conversion [("2024-01-01 11:00:00"%string, clock sample_day 11 0)]
   /\ sample_to_datetime [Str "2024-01-01 11:30:00"] = Return sample_conversion
   /\ reads_naive sample_conversion [("2024-01-01 11:30:00"%string, clock sample_day 11 30)]
   /\ sample_fromisoformat "2024-01-01T10:00:00" = Return (Naive (clock sample_day 10 0))
   /\ sample_fromisoformat "2024-01-01T12:00:00" = Return (Naive (clock sample_day 12 0)))
  /\ generate_training_dataset sample_files sample_to_datetime sample_fromisoformat
       "input_dataset/cooking_metrics.csv" "input_dataset/faulty_intervals.csv"
       "input_dataset/batch_registry.csv" "M1" "classic"
       "2024-01-01T10:00:00" "2024-01-01T12:00:00" =
     Return (scenario_aggregates sample_day).
Proof.
  assert (Ht : reads_naive sample_conversion
                 [("2024-01-01 10:15:00"%string, clock sample_day 10 15);
                  ("2024-01-01 10:45:00"%string, clock sample_day 10 45);
                  ("2024-01-01 11:05:00"%string, clock sample_day 11 5)]).
  { split; [reflexivity|]. repeat constructor. }
  assert (Hs : reads_naive sample_conversion
                 [("2024-01-01 11:00:00"%string, clock sample_day 11 0)]).
  { split; [reflexivity|]. repeat constructor. }
  assert (He : reads_naive sample_conversion
                 [("2024-01-01 11:30:00"%string, clock sample_day 11 30)]).
  { split; [reflexivity|]. repeat constructor. }
  split.
  - repeat split; solve [reflexivity | apply Ht | apply Hs | apply He].
  - apply (end_to_end_scenario sample_files sample_to_datetime sample_fromisoformat
             sample_day
             "input_dataset/cooking_metrics.csv" "input_dataset/faulty_intervals.csv"
             "input_dataset/batch_registry.csv"
             "2024-01-01T10:00:00" "2024-01-01T12:00:00"
             "2024-01-01 10:15:00" "2024-01-01 10:45:00" "2024-01-01 11:05:00"
             "2024-01-01 11:00:00" "2024-01-01 11:30:00"
             sample_conversion sample_conversion sample_conversion);
      solve [reflexivity | exact Ht | exact Hs | exact He].
Defined.

Lemma absent_type_gives_empty_table_witness :
  (load_dataset sample_files sample_to_datetime
     "input_dataset/cooking_metrics.csv" date_columns ";" "," = Return (loaded_cooking sample_day)
   /\ load_dataset sample_files sample_to_datetime
     "input_dataset/faulty_intervals.csv" date_columns ";" "," = Return (loaded_faulty sample_day)
   /\ load_dataset sample_files sample_to_datetime
     "input_dataset/batch_registry.csv" date_columns ";" "," = Return scenario_registry
   /\ sample_fromisoformat "2024-01-01T10:00:00" = Return (Naive (clock sample_day 10 0))
   /\ sample_fromisoformat "2024-01-01T12:00:00" = Return (Naive (clock sample_day 12 0))
   /\ window_stage (loaded_cooking sample_day) "M1"
        (Naive (clock sample_day 10 0)) (Naive (clock sample_day 12 0)) =
      Return (scenario_metrics sample_day)
   /\ exclusion_stage (loaded_faulty sample_day) (loaded_cooking sample_day)
        (scenario_metrics sample_day) "M1" = Return (scenario_kept sample_day)
   /\ merge_stage (loaded_cooking sample_day) scenario_registry (scenario_kept sample_day) =
      Return (scenario_joined sample_day)
   /\ aggregation_stage (loaded_cooking sample_day) scenario_registry
        (scenario_joined sample_day) = Return (scenario_aggregates sample_day)
   /\ (forall j, In j (scenario_joined sample_day) -> mr_arepa_type j <> Some "reina"%string))
  /\ generate_training_dataset sample_files sample_to_datetime sample_fromisoformat
       "input_dataset/cooking_metrics.csv" "input_dataset/faulty_intervals.csv"
       "input_dataset/batch_registry.csv" "M1" "reina"
       "2024-01-01T10:00:00" "2024-01-01T12:00:00" = Return []
  /\ filter_by_arepa_type (scenario_aggregates sample_day) "reina" = [].
Proof.
  assert (Habsent : forall j, In j (scenario_joined sample_day) ->
                              mr_arepa_type j <> Some "reina"%string).
  { intros j Hin. destruct Hin as [<- | [<- | []]]; discriminate. }
  split.
  - repeat split; try reflexivity. exact Habsent.
  - apply (absent_type_gives_empty_table
             sample_files sample_to_datetime sample_fromisoformat
             "input_dataset/cooking_metrics.csv" "input_dataset/faulty_intervals.csv"
             "input_dataset/batch_registry.csv" "M1" "reina"
             "2024-01-01T10:00:00" "2024-01-01T12:00:00"
             (loaded_cooking sample_day) (loaded_faulty sample_day) scenario_registry
             (Naive (clock sample_day 10 0)) (Naive (clock sample_day 12 0))
             (scenario_metrics sample_day) (scenario_kept sample_day)
             (scenario_joined sample_day) (scenario_aggregates sample_day));
      try reflexivity.
    exact Habsent.
Defined.

Lemma batch_join_cardinality_witness :
  NoDup (map br_batch_id sample_registry)
  /\ List.length (pd_merge sample_metrics sample_registry) =
       List.length (filter (has_match sample_registry) sample_metrics)
  /\ pd_merge (filter (has_match sample_registry) sample_metrics) sample_registry =
     pd_merge sample_metrics sample_registry
  /\ (forall j, In j (pd_merge sample_metrics sample_registry) <->
                exists m b, In m sample_metrics /\ In b sample_registry /\
                            batch_id m = br_batch_id b /\ j = join_row m b).
Proof.
  assert (Hnd : NoDup (map br_batch_id sample_registry)).
  { simpl. repeat constructor; simpl; intuition discriminate. }
  split; [exact Hnd|].
  apply (batch_join_cardinality sample_metrics sample_registry Hnd).
Defined.

(** * Further properties of the stages *)

(** ** Time windows *)

Lemma filter_none {A : Type} (p : A -> bool) (l : list A) :
  (forall x, In x l -> p x = false) -> filter p l = [].
Proof.
  induction l as [|x l IH]; simpl; intros H; [reflexivity|].
  rewrite (H x (or_introl eq_refl)). apply IH. intros y Hy. apply H. right. exact Hy.
Qed.

Lemma in_window_meet (machine : string) (s1 e1 s2 e2 : instant) (r : MetricRecord) :
  in_window machine s1 e1 r && in_window machine s2 e2 r =
  in_window machine (Z.max s1 s2) (Z.min e1 e2) r.
Proof.
  apply eq_true_iff_eq. rewrite andb_true_iff, !in_window_true. split.
  - intros [[Hm (t & Ht & H1)] [_ (t' & Ht' & H2)]].
    rewrite Ht in Ht'. injection Ht' as <-.
    split; [exact Hm|]. exists t. split; [exact Ht | lia].
  - intros [Hm (t & Ht & H)]. split; (split; [exact Hm|]); exists t; (split; [exact Ht | lia]).
Qed.

(** X1. Two successive Time-Window Filters for the same machine amount to one
    filter on the intersection of the two windows; in particular filtering a
    second time with the same window changes nothing. *)
Theorem time_windows_intersect
    (cooking : list MetricRecord) (machine : string) (s1 e1 s2 e2 : instant) :
  filter_cooking_data (filter_cooking_data cooking machine s1 e1) machine s2 e2 =
    filter_cooking_data cooking machine (Z.max s1 s2) (Z.min e1 e2)
  /\ filter_cooking_data (filter_cooking_data cooking machine s1 e1) machine s1 e1 =
    filter_cooking_data cooking machine s1 e1.
Proof.
  unfold filter_cooking_data. split.
  - rewrite filter_filter. apply filter_ext. intros r. apply in_window_meet.
  - rewrite filter_filter. apply filter_ext. intros r. apply andb_diag.
Qed.

(** X2. A window whose end precedes its start keeps no row. *)
Theorem inverted_window_keeps_nothing
    (cooking : list MetricRecord) (machine : string) (s e : instant) :
  e < s -> filter_cooking_data cooking machine s e = [].
Proof.
  intros Hes. unfold filter_cooking_data. apply filter_none. intros r _.
  apply not_true_is_false. intros H. apply in_window_true in H.
  destruct H as [_ (t & _ & H)]. lia.
Qed.

Lemma inverted_window_keeps_nothing_witness :
  clock sample_day 10 0 < clock sample_day 12 0
  /\ filter_cooking_data sample_metrics "M1"
       (clock sample_day 12 0) (clock sample_day 10 0) = [].
Proof.
  split.
  - reflexivity.
  - apply (inverted_window_keeps_nothing sample_metrics "M1"
             (clock sample_day 12 0) (clock sample_day 10 0)).
    reflexivity.
Defined.

(** ** Faulty intervals *)

Lemma existsb_Permutation {A : Type} (f : A -> bool) (l l' : list A) :
  Permutation l l' -> existsb f l = existsb f l'.
Proof.
  induction 1 as [|x l l' _ IH|x y l|l l' l'' _ IH1 _ IH2]; simpl.
  - reflexivity.
  - rewrite IH. reflexivity.
  - destruct (f x), (f y); reflexivity.
  - rewrite IH1. exact IH2.
Qed.

(** X3. The order in which the faulty intervals are listed does not matter:
    two interval tables with the same rows exclude the same metric rows. *)
Theorem faulty_exclusion_order_irrelevant
    (faulty faulty' : list FaultyInterval) (metrics : list MetricRecord)
    (machine : string) :
  Permutation faulty faulty' ->
  filter_faulty_intervals faulty metrics machine =
  filter_faulty_intervals faulty' metrics machine.
Proof.
  intros Hperm. rewrite !filter_faulty_intervals_filter. apply filter_ext.
  intros r. unfold excluded. rewrite (existsb_Permutation _ _ _ Hperm). reflexivity.
Qed.

Lemma faulty_exclusion_order_irrelevant_witness :
  Permutation (sample_open_interval :: scenario_intervals sample_day)
              (scenario_intervals sample_day ++ [sample_open_interval])
  /\ filter_faulty_intervals (sample_open_interval :: scenario_intervals sample_day)
       sample_metrics "M1" =
     filter_faulty_intervals (scenario_intervals sample_day ++ [sample_open_interval])
       sample_metrics "M1".
Proof.
  assert (Hperm : Permutation (sample_open_interval :: scenario_intervals sample_day)
                    (scenario_intervals sample_day ++ [sample_open_interval])).
  { simpl. apply perm_swap. }
  split; [exact Hperm|].
  apply (faulty_exclusion_order_irrelevant _ _ sample_metrics "M1" Hperm).
Defined.

(** X4. Excluding with two interval tables one after the other is excluding
    with their concatenation; excluding a second time with the same table, or
    listing every interval twice, changes nothing; and more intervals never
    bring a row back. *)
Theorem faulty_exclusion_composes
    (faulty1 faulty2 : list FaultyInterval) (metrics : list MetricRecord)
    (machine : string) :
  filter_faulty_intervals (faulty1 ++ faulty2) metrics machine =
    filter_faulty_intervals faulty2
      (filter_faulty_intervals faulty1 metrics machine) machine
  /\ filter_faulty_intervals faulty1
       (filter_faulty_intervals faulty1 metrics machine) machine =
     filter_faulty_intervals faulty1 metrics machine
  /\ filter_faulty_intervals (faulty1 ++ faulty1) metrics machine =
     filter_faulty_intervals faulty1 metrics machine
  /\ Subsequence (filter_faulty_intervals (faulty1 ++ faulty2) metrics machine)
                 (filter_faulty_intervals faulty1 metrics machine).
Proof.
  assert (Hidem : filter_faulty_intervals faulty1
                    (filter_faulty_intervals faulty1 metrics machine) machine =
                  filter_faulty_intervals faulty1 metrics machine).
  { rewrite !filter_faulty_intervals_filter, filter_filter.
    apply filter_ext. intros r. apply andb_diag. }
  assert (Happ : forall f2, filter_faulty_intervals (faulty1 ++ f2) metrics machine =
                   filter_faulty_intervals f2
                     (filter_faulty_intervals faulty1 metrics machine) machine).
  { intros f2. unfold filter_faulty_intervals. apply fold_left_app. }
  split; [apply Happ|]. split; [exact Hidem|]. split.
  - rewrite Happ. exact Hidem.
  - rewrite Happ, (filter_faulty_intervals_filter faulty2). apply filter_Subsequence.
Qed.

(** X5. A faulty interval whose end precedes its start covers no instant: it
    excludes no row, wherever it stands in the interval table. *)
Theorem inverted_interval_excludes_nothing
    (iv : FaultyInterval) (s e : instant) (before after : list FaultyInterval)
    (metrics : list MetricRecord) (machine : string) :
  start_time iv = Some s -> end_time iv = Some e -> e < s ->
  filter_faulty_intervals (before ++ iv :: after) metrics machine =
  filter_faulty_intervals (before ++ after) metrics machine.
Proof.
  intros Hs He Hlt. rewrite !filter_faulty_intervals_filter. apply filter_ext.
  intros r. unfold excluded. rewrite !existsb_app. simpl.
  assert (Hmask : faulty_mask iv r = false).
  { apply not_true_is_false. intros H. apply faulty_mask_true in H.
    destruct H as (t & s' & e' & _ & Hs' & He' & H).
    rewrite Hs in Hs'. rewrite He in He'. injection Hs' as <-. injection He' as <-. lia. }
  rewrite Hmask, andb_false_r. reflexivity.
Qed.

Lemma inverted_interval_excludes_nothing_witness :
  (start_time sample_inverted_interval = Some (clock sample_day 11 30)
   /\ end_time sample_inverted_interval = Some (clock sample_day 11 0)
   /\ clock sample_day 11 0 < clock sample_day 11 30)
  /\ filter_faulty_intervals
       (scenario_intervals 0 ++ sample_inverted_interval :: scenario_intervals 1)
       sample_metrics "M1" =
     filter_faulty_intervals (scenario_intervals 0 ++ scenario_intervals 1)
       sample_metrics "M1".
Proof.
  split.
  - repeat split; reflexivity.
  - apply (inverted_interval_excludes_nothing sample_inverted_interval
             (clock sample_day 11 30) (clock sample_day 11 0)
             (scenario_intervals 0) (scenario_intervals 1) sample_metrics "M1");
      reflexivity.
Defined.

(** X6. The Time-Window Filter and the Faulty-Interval Excluder commute:
    excluding the faulty intervals before restricting to the window gives the
    table the script computes by restricting first. *)
Theorem window_and_exclusion_commute
    (faulty : list FaultyInterval) (cooking : list MetricRecord)
    (machine machine' : string) (s e : instant) :
  filter_faulty_intervals faulty (filter_cooking_data cooking machine' s e) machine =
  filter_cooking_data (filter_faulty_intervals faulty cooking machine) machine' s e.
Proof.
  unfold filter_cooking_data. rewrite !filter_faulty_intervals_filter, !filter_filter.
  apply filter_ext. intros r. apply andb_comm.
Qed.

(** X7. When one interval of the machine spans the whole window, nothing is
    left of the window's rows. *)
Theorem interval_spanning_window_empties
    (iv : FaultyInterval) (a b : instant) (faulty : list FaultyInterval)
    (cooking : list MetricRecord) (machine : string) (s e : instant) :
  In iv faulty ->
  fi_machine_id iv = Some machine ->
  start_time iv = Some a -> end_time iv = Some b ->
  a <= s -> e <= b ->
  filter_faulty_intervals faulty (filter_cooking_data cooking machine s e) machine = [].
Proof.
  intros Hin Hm Ha Hb Has Heb. rewrite filter_faulty_intervals_filter.
  apply filter_none. intros r Hr. apply negb_false_iff.
  apply filter_In in Hr. destruct Hr as [_ Hw]. apply in_window_true in Hw.
  destruct Hw as [_ (t & Ht & Hst)].
  apply excluded_true. exists iv. split; [exact Hin|]. split; [exact Hm|].
  exists t, a, b. repeat split; try assumption; lia.
Qed.

Lemma interval_spanning_window_empties_witness :
  (In sample_whole_day_interval
      (sample_open_interval :: [sample_whole_day_interval])
   /\ fi_machine_id sample_whole_day_interval = Some "M1"%string
   /\ start_time sample_whole_day_interval = Some (clock sample_day 0 0)
   /\ end_time sample_whole_day_interval = Some (clock sample_day 24 0)
   /\ clock sample_day 0 0 <= clock sample_day 10 0
   /\ clock sample_day 12 0 <= clock sample_day 24 0)
  /\ filter_faulty_intervals (sample_open_interval :: [sample_whole_day_interval])
       (filter_cooking_data sample_metrics "M1"
          (clock sample_day 10 0) (clock sample_day 12 0)) "M1" = [].
Proof.
  split.
  - repeat split; try reflexivity; try (vm_compute; discriminate).
    right. left. reflexivity.
  - apply (interval_spanning_window_empties sample_whole_day_interval
             (clock sample_day 0 0) (clock sample_day 24 0)
             (sample_open_interval :: [sample_whole_day_interval])
             sample_metrics "M1" (clock sample_day 10 0) (clock sample_day 12 0));
      try reflexivity; try (vm_compute; discriminate).
    right. left. reflexivity.
Defined.

(** ** The join *)

Lemma metric_part_join_row (m : MetricRecord) (l : list BatchRegistryEntry) :
  map metric_part (map (join_row m) l) = repeat m (List.length l).
Proof.
  induction l as [|b l IH]; simpl; [reflexivity|].
  rewrite IH. destruct m. reflexivity.
Qed.

(** X8. When the batch identifiers of the registry are pairwise distinct, the
    join neither alters nor repeats a metric row: the metric columns of the
    joined rows are, up to the order of the rows, the metric rows that have a
    registry entry, each once. *)
Theorem batch_join_keeps_matched_metrics
    (metrics : list MetricRecord) (registry : list BatchRegistryEntry) :
  NoDup (map br_batch_id registry) ->
  Permutation (map metric_part (pd_merge metrics registry))
              (filter (has_match registry) metrics).
Proof.
  intros Hnd.
  assert (Heq : map metric_part (pd_merge metrics registry) =
                filter (has_match registry) metrics).
  { unfold pd_merge. induction metrics as [|m metrics IH]; simpl; [reflexivity|].
    rewrite map_app, metric_part_join_row, (matches_unique m registry Hnd), IH.
    destruct (has_match registry m); reflexivity. }
  rewrite Heq. reflexivity.
Qed.

Lemma batch_join_keeps_matched_metrics_witness :
  NoDup (map br_batch_id sample_registry)
  /\ Permutation (map metric_part (pd_merge sample_metrics sample_registry))
                 (filter (has_match sample_registry) sample_metrics).
Proof.
  assert (Hnd : NoDup (map br_batch_id sample_registry)).
  { simpl. repeat constructor; simpl; intuition discriminate. }
  split; [exact Hnd|].
  apply (batch_join_keeps_matched_metrics sample_metrics sample_registry Hnd).
Defined.

Lemma pd_merge_length_app (metrics : list MetricRecord)
    (registry1 registry2 : list BatchRegistryEntry) :
  List.length (pd_merge metrics (registry1 ++ registry2)) =
  (List.length (pd_merge metrics registry1) + List.length (pd_merge metrics registry2))%nat.
Proof.
  unfold pd_merge. induction metrics as [|m metrics IH]; simpl; [reflexivity|].
  rewrite !length_app, !length_map, filter_app, length_app, IH. lia.
Qed.

(** X9. The join fans out on repeated registry entries: the number of joined
    rows is additive in the registry, so a registry listed twice gives twice
    the rows.  An empty registry, like an empty metrics table, gives the empty
    table. *)
Theorem batch_join_fans_out
    (metrics : list MetricRecord) (registry1 registry2 : list BatchRegistryEntry) :
  List.length (pd_merge metrics (registry1 ++ registry2)) =
    (List.length (pd_merge metrics registry1) +
     List.length (pd_merge metrics registry2))%nat
  /\ List.length (pd_merge metrics (registry1 ++ registry1)) =
     (2 * List.length (pd_merge metrics registry1))%nat
  /\ pd_merge metrics [] = []
  /\ pd_merge [] registry1 = [].
Proof.
  split; [apply pd_merge_length_app|]. split; [|split].
  - rewrite pd_merge_length_app. lia.
  - unfold pd_merge. induction metrics as [|m metrics IH]; simpl; [reflexivity | exact IH].
  - reflexivity.
Qed.

(** ** The aggregation *)

Lemma label_aggregate (merged : list MergedRow) (k : group_key) :
  label (aggregate merged k) = k.
Proof. destruct k. reflexivity. Qed.

Lemma output_is_aggregate (merged : list MergedRow) (o : HourlyAggregate) :
  In o (group_by_hourly_average_cooking_metrics merged) ->
  o = aggregate merged (label o) /\ In (label o) (groups merged).
Proof.
  unfold group_by_hourly_average_cooking_metrics. intros Hin.
  apply in_map_iff in Hin. destruct Hin as (k & <- & Hk).
  rewrite label_aggregate. auto.
Qed.

Lemma list_sum_zero {A : Type} (l : list A) : list_sum (map (fun _ => 0%nat) l) = 0%nat.
Proof. induction l; simpl; [reflexivity | assumption]. Qed.

Lemma list_sum_plus {A : Type} (f g : A -> nat) (l : list A) :
  list_sum (map (fun x => (f x + g x)%nat) l) =
  (list_sum (map f l) + list_sum (map g l))%nat.
Proof. induction l as [|x l IH]; simpl; [reflexivity | rewrite IH; lia]. Qed.

Lemma indicator_sum (k0 : group_key) (ks : list group_key) :
  NoDup ks -> In k0 ks ->
  list_sum (map (fun k => if group_key_eqb k0 k then 1%nat else 0%nat) ks) = 1%nat.
Proof.
  induction ks as [|k ks IH]; simpl; intros Hnd Hin; [contradiction|].
  inversion Hnd as [|k' ks' Hnotin Hnd']; subst.
  destruct (group_key_eqb k0 k) eqn:E.
  - apply group_key_eqb_eq in E. subst k.
    rewrite (map_ext_in _ (fun _ => 0%nat)), list_sum_zero; [reflexivity|].
    intros k Hk. destruct (group_key_eqb k0 k) eqn:E'; [|reflexivity].
    apply group_key_eqb_eq in E'. subst k. contradiction.
  - destruct Hin as [-> | Hin].
    + assert (group_key_eqb k0 k0 = true) by (apply group_key_eqb_eq; reflexivity).
      congruence.
    + simpl. apply IH; assumption.
Qed.

Lemma group_sizes_sum (merged : list MergedRow) (ks : list group_key) :
  NoDup ks ->
  (forall r k, In r merged -> key_of r = Some k -> In k ks) ->
  list_sum (map (group_size merged) ks) = List.length (filter has_key merged).
Proof.
  intros Hnd. unfold group_size.
  induction merged as [|r merged IH]; intros Hcover.
  - simpl. apply list_sum_zero.
  - assert (Hcover' : forall r' k, In r' merged -> key_of r' = Some k -> In k ks).
    { intros r' k Hr'. apply Hcover. right. exact Hr'. }
    simpl. unfold has_key, in_group. destruct (key_of r) as [k0|] eqn:E.
    + rewrite (map_ext _ (fun k => ((if group_key_eqb k0 k then 1 else 0) +
                                    List.length (filter (in_group k) merged))%nat)).
      * rewrite list_sum_plus, indicator_sum, (IH Hcover'); [reflexivity | exact Hnd |].
        apply (Hcover r k0); [left; reflexivity | exact E].
      * intros k. destruct (group_key_eqb k0 k); reflexivity.
    + apply (IH Hcover').
Qed.

(** X10. The groups partition the rows that have a timestamp and a type:
    each such row is a member of one output row's group and of no other; a
    row without a timestamp or without a type is a member of none; and the
    sizes of the groups add up to the number of rows that have both. *)
Theorem aggregation_is_a_partition (merged : list MergedRow) :
  (forall r k, In r merged -> key_of r = Some k ->
     exists o, In o (group_by_hourly_average_cooking_metrics merged) /\
               label o = k /\ in_group (label o) r = true /\
               forall o', In o' (group_by_hourly_average_cooking_metrics merged) ->
                          in_group (label o') r = true -> o' = o)
  /\ (forall r, key_of r = None -> forall k, in_group k r = false)
  /\ list_sum (map (fun o => group_size merged (label o))
                   (group_by_hourly_average_cooking_metrics merged)) =
     List.length (filter has_key merged).
Proof.
  split; [|split].
  - intros r k Hr Hk. exists (aggregate merged k).
    rewrite label_aggregate. repeat split.
    + unfold group_by_hourly_average_cooking_metrics. apply in_map.
      apply groups_In. exists r. auto.
    + apply in_group_true. exact Hk.
    + intros o' Ho' Hmem. apply in_group_true in Hmem.
      apply output_is_aggregate in Ho'. destruct Ho' as [Heq _].
      rewrite Heq. f_equal. congruence.
  - intros r Hk k. unfold in_group. rewrite Hk. reflexivity.
  - unfold group_by_hourly_average_cooking_metrics. rewrite map_map.
    rewrite (map_ext _ (group_size merged)).
    + apply group_sizes_sum; [apply groups_NoDup|].
      intros r k Hr Hk. apply groups_In. exists r. auto.
    + intros k. rewrite label_aggregate. reflexivity.
Qed.

Lemma string_leb_cases (a b : string) :
  String.leb a b = true <-> a = b \/ OrderedTypeEx.String_as_OT.lt a b.
Proof.
  unfold String.leb.
  pose proof (OrderedTypeEx.String_as_OT.cmp_eq a b) as Heq.
  pose proof (OrderedTypeEx.String_as_OT.cmp_lt a b) as Hlt.
  pose proof (OrderedTypeEx.String_as_OT.cmp_lt b a) as Hgt.
  unfold OrderedTypeEx.String_as_OT.cmp in *.
  rewrite (String.compare_antisym b a) in Hgt.
  destruct (String.compare a b); simpl in Hgt.
  - split; [intros _; left; apply Heq; reflexivity | reflexivity].
  - split; [intros _; right; apply Hlt; reflexivity | reflexivity].
  - split; [discriminate|]. intros [H | H].
    + apply Heq in H. discriminate.
    + apply Hlt in H. discriminate.
Qed.

Lemma string_leb_trans (a b c : string) :
  String.leb a b = true -> String.leb b c = true -> String.leb a c = true.
Proof.
  rewrite !string_leb_cases. intros [-> | Hab] [-> | Hbc]; auto.
  right. exact (OrderedTypeEx.String_as_OT.lt_trans _ _ _ Hab Hbc).
Qed.

Lemma group_key_leb_true (k1 k2 : group_key) :
  group_key_leb k1 k2 = true <->
  fst k1 < fst k2 \/ (fst k1 = fst k2 /\ String.leb (snd k1) (snd k2) = true).
Proof.
  unfold group_key_leb.
  rewrite orb_true_iff, andb_true_iff, Z.ltb_lt, Z.eqb_eq. reflexivity.
Qed.

Lemma group_key_leb_trans (k1 k2 k3 : group_key) :
  group_key_leb k1 k2 = true -> group_key_leb k2 k3 = true ->
  group_key_leb k1 k3 = true.
Proof.
  rewrite !group_key_leb_true. intros [H12 | [E12 L12]] [H23 | [E23 L23]].
  - left. lia.
  - left. lia.
  - left. lia.
  - right. split; [lia|]. exact (string_leb_trans _ _ _ L12 L23).
Qed.

Lemma label_lt_of_leb (k1 k2 : group_key) :
  group_key_leb k1 k2 = true -> k1 <> k2 -> label_lt k1 k2.
Proof.
  destruct k1 as [b1 a1], k2 as [b2 a2]. rewrite group_key_leb_true. simpl.
  unfold label_lt. simpl. intros [Hlt | [-> Hle]] Hne; [left; exact Hlt|].
  right. split; [reflexivity|].
  unfold String.leb in Hle. unfold String.ltb.
  destruct (String.compare a1 a2) eqn:E; try reflexivity; try discriminate.
  apply String.compare_eq_iff in E. subst. contradiction.
Qed.

Lemma groups_strictly_sorted (merged : list MergedRow) :
  StronglySorted label_lt (groups merged).
Proof.
  assert (Hs : StronglySorted (fun k1 k2 => group_key_leb k1 k2 = true) (groups merged)).
  { apply Sorted_StronglySorted; [|apply groups_Sorted].
    intros k1 k2 k3. apply group_key_leb_trans. }
  pose proof (groups_NoDup merged) as Hnd.
  induction Hs as [|k ks Hs IH Hall]; [constructor|].
  inversion Hnd as [|k' ks' Hnotin Hnd']; subst.
  constructor; [apply IH; exact Hnd'|].
  rewrite Forall_forall in *. intros k2 Hk2.
  apply label_lt_of_leb; [apply Hall; exact Hk2|].
  intros ->. contradiction.
Qed.

Lemma StronglySorted_map {A B : Type} (R : B -> B -> Prop) (f : A -> B) (l : list A) :
  StronglySorted (fun x y => R (f x) (f y)) l -> StronglySorted R (map f l).
Proof.
  induction 1 as [|x l Hs IH Hall]; simpl; constructor; [exact IH|].
  rewrite Forall_forall in *. intros y Hy. apply in_map_iff in Hy.
  destruct Hy as (x' & <- & Hx'). apply Hall. exact Hx'.
Qed.

Lemma StronglySorted_filter {A : Type} (R : A -> A -> Prop) (p : A -> bool) (l : list A) :
  StronglySorted R l -> StronglySorted R (filter p l).
Proof.
  induction 1 as [|x l Hs IH Hall]; simpl; [constructor|].
  destruct (p x); [|exact IH]. constructor; [exact IH|].
  rewrite Forall_forall in *. intros y Hy. apply filter_In in Hy. apply Hall. tauto.
Qed.

Lemma output_strictly_sorted (merged : list MergedRow) :
  StronglySorted (fun o1 o2 => label_lt (label o1) (label o2))
                 (group_by_hourly_average_cooking_metrics merged).
Proof.
  unfold group_by_hourly_average_cooking_metrics.
  pose proof (groups_strictly_sorted merged) as Hs.
  induction Hs as [|k ks Hs IH Hall]; simpl; constructor; [exact IH|].
  rewrite Forall_forall in *. intros o Ho. apply in_map_iff in Ho.
  destruct Ho as (k' & <- & Hk'). rewrite !label_aggregate. apply Hall. exact Hk'.
Qed.

(** X11. The rows of the aggregated table stand in strictly increasing order
    of their label: by hour bucket first, and within one bucket by product
    type in the order of strings. *)
Theorem aggregation_output_is_sorted (merged : list MergedRow) :
  StronglySorted
    (fun o1 o2 =>
       ha_timestamp o1 < ha_timestamp o2 \/
       (ha_timestamp o1 = ha_timestamp o2 /\
        String.ltb (ha_arepa_type o1) (ha_arepa_type o2) = true))
    (group_by_hourly_average_cooking_metrics merged).
Proof.
  exact (output_strictly_sorted merged).
Qed.

Lemma row_keys_length (merged : list MergedRow) :
  List.length (row_keys merged) = List.length (filter has_key merged).
Proof.
  induction merged as [|r merged IH]; simpl; [reflexivity|].
  unfold has_key. destruct (key_of r); simpl; rewrite IH; reflexivity.
Qed.

Lemma distinct_length (ks : list group_key) :
  (List.length (distinct ks) <= List.length ks)%nat.
Proof.
  induction ks as [|k ks IH]; simpl; [lia|].
  destruct (existsb (group_key_eqb k) ks); simpl; lia.
Qed.

Lemma row_keys_with_key (merged : list MergedRow) :
  row_keys (filter has_key merged) = row_keys merged.
Proof.
  induction merged as [|r merged IH]; simpl; [reflexivity|].
  unfold has_key at 1. destruct (key_of r) eqn:E; simpl.
  - rewrite E, IH. reflexivity.
  - exact IH.
Qed.

Lemma in_group_has_key (k : group_key) (r : MergedRow) :
  has_key r && in_group k r = in_group k r.
Proof.
  unfold has_key, in_group. destruct (key_of r); reflexivity.
Qed.

(** X12. The aggregated table is never longer than the number of input rows
    that have a timestamp and a type (the empty table gives the empty table);
    every output row averages at least one input row; and the rows without a
    timestamp or without a type play no part: dropping them beforehand gives
    the same aggregated table. *)
Theorem aggregation_edge_cases (merged : list MergedRow) :
  (List.length (group_by_hourly_average_cooking_metrics merged) <=
   List.length (filter has_key merged))%nat
  /\ group_by_hourly_average_cooking_metrics [] = []
  /\ (forall o, In o (group_by_hourly_average_cooking_metrics merged) ->
                (1 <= group_size merged (label o))%nat)
  /\ group_by_hourly_average_cooking_metrics (filter has_key merged) =
     group_by_hourly_average_cooking_metrics merged.
Proof.
  split; [|split; [|split]].
  - unfold group_by_hourly_average_cooking_metrics, groups.
    rewrite length_map, (Permutation_length (sort_keys_Permutation _)).
    rewrite <- row_keys_length. apply distinct_length.
  - reflexivity.
  - intros o Ho. apply output_is_aggregate in Ho. destruct Ho as [_ Hk].
    apply groups_In in Hk. destruct Hk as (r & Hr & Hk).
    unfold group_size.
    assert (Hmem : In r (filter (in_group (label o)) merged)).
    { apply filter_In. split; [exact Hr | apply in_group_true; exact Hk]. }
    destruct (filter (in_group (label o)) merged); [contradiction | simpl; lia].
  - unfold group_by_hourly_average_cooking_metrics, groups.
    rewrite row_keys_with_key. apply map_ext. intros k. unfold aggregate.
    rewrite filter_filter, (filter_ext _ _ (in_group_has_key k)). reflexivity.
Qed.

(** X13. Two rows whose timestamps are at least one hour apart are never
    averaged together: no group has both as members. *)
Theorem rows_an_hour_apart_never_share_a_group
    (r1 r2 : MergedRow) (t1 t2 : instant) (k : group_key) :
  mr_timestamp r1 = Some t1 -> mr_timestamp r2 = Some t2 ->
  hour <= Z.abs (t1 - t2) ->
  in_group k r1 = true -> in_group k r2 = false.
Proof.
  intros H1 H2 Hapart Hmem. apply not_true_is_false. intros Hmem'.
  apply in_group_true in Hmem. apply in_group_true in Hmem'.
  destruct k as [b a].
  apply key_of_Some in Hmem. apply key_of_Some in Hmem'.
  destruct Hmem as (u1 & Hu1 & Hb1 & _). destruct Hmem' as (u2 & Hu2 & Hb2 & _).
  rewrite H1 in Hu1. rewrite H2 in Hu2. injection Hu1 as <-. injection Hu2 as <-.
  pose proof (floor_hour_spec t1) as [B1 _]. pose proof (floor_hour_spec t2) as [B2 _].
  lia.
Qed.

Lemma rows_an_hour_apart_never_share_a_group_witness :
  (mr_timestamp (sample_merged_row 10 15 (Some "classic"%string) PrimFloat.nan PrimFloat.nan) =
     Some (clock sample_day 10 15)
   /\ mr_timestamp (sample_merged_row 11 20 (Some "classic"%string) PrimFloat.nan PrimFloat.nan) =
     Some (clock sample_day 11 20)
   /\ hour <= Z.abs (clock sample_day 10 15 - clock sample_day 11 20)
   /\ in_group (clock sample_day 10 0, "classic"%string)
        (sample_merged_row 10 15 (Some "classic"%string) PrimFloat.nan PrimFloat.nan) = true)
  /\ in_group (clock sample_day 10 0, "classic"%string)
       (sample_merged_row 11 20 (Some "classic"%string) PrimFloat.nan PrimFloat.nan) = false.
Proof.
  split.
  - repeat split; try reflexivity. vm_compute. discriminate.
  - apply (rows_an_hour_apart_never_share_a_group
             (sample_merged_row 10 15 (Some "classic"%string) PrimFloat.nan PrimFloat.nan)
             (sample_merged_row 11 20 (Some "classic"%string) PrimFloat.nan PrimFloat.nan)
             (clock sample_day 10 15) (clock sample_day 11 20)
             (clock sample_day 10 0, "classic"%string));
      try reflexivity. vm_compute. discriminate.
Defined.

(** ** The type filter after the aggregation *)

(** X14. Filtering by one type and then by a different type leaves nothing,
    in whichever order the two filters are applied. *)
Theorem type_filters_of_distinct_types
    (tbl : list HourlyAggregate) (t1 t2 : string) :
  t1 <> t2 ->
  filter_by_arepa_type (filter_by_arepa_type tbl t1) t2 = []
  /\ filter_by_arepa_type (filter_by_arepa_type tbl t2) t1 = [].
Proof.
  intros Hne. split; apply filter_by_arepa_type_absent; intros r Hr Heq;
    apply filter_by_arepa_type_In in Hr; destruct Hr as [_ Hr]; congruence.
Qed.

Lemma type_filters_of_distinct_types_witness :
  "classic"%string <> "reina"%string
  /\ filter_by_arepa_type
       (filter_by_arepa_type
          (group_by_hourly_average_cooking_metrics sample_merged) "classic") "reina" = []
  /\ filter_by_arepa_type
       (filter_by_arepa_type
          (group_by_hourly_average_cooking_metrics sample_merged) "reina") "classic" = [].
Proof.
  split.
  - discriminate.
  - apply (type_filters_of_distinct_types
             (group_by_hourly_average_cooking_metrics sample_merged) "classic" "reina").
    discriminate.
Defined.

Lemma string_ltb_irrefl (a : string) : String.ltb a a = false.
Proof.
  unfold String.ltb.
  pose proof (proj2 (OrderedTypeEx.String_as_OT.cmp_eq a a) eq_refl) as H.
  unfold OrderedTypeEx.String_as_OT.cmp in H. rewrite H. reflexivity.
Qed.

Lemma typed_output_increasing (merged : list MergedRow) (t : string) :
  StronglySorted Z.lt
    (map ha_timestamp
       (filter_by_arepa_type (group_by_hourly_average_cooking_metrics merged) t)).
Proof.
  apply StronglySorted_map. unfold filter_by_arepa_type.
  pose proof (output_strictly_sorted merged) as Hs.
  induction Hs as [|o l Hs IH Hall]; simpl; [constructor|].
  destruct (String.eqb_spec (ha_arepa_type o) t) as [Ho | _]; [|exact IH].
  constructor; [exact IH|].
  rewrite Forall_forall in *. intros o' Ho'. apply filter_In in Ho'.
  destruct Ho' as [Hin Ht]. apply String.eqb_eq in Ht.
  destruct (Hall o' Hin) as [Hlt | [_ Hlt]]; [exact Hlt|].
  unfold label in Hlt. simpl in Hlt. rewrite Ho, Ht, string_ltb_irrefl in Hlt.
  discriminate.
Qed.

(** X15. After the Type Filter the aggregated table has at most one row per
    hour: the timestamps of the rows of one type are strictly increasing. *)
Theorem one_row_per_hour_for_a_type (merged : list MergedRow) (t : string) :
  StronglySorted Z.lt
    (map ha_timestamp
       (filter_by_arepa_type (group_by_hourly_average_cooking_metrics merged) t))
  /\ NoDup (map ha_timestamp
              (filter_by_arepa_type (group_by_hourly_average_cooking_metrics merged) t)).
Proof.
  pose proof (typed_output_increasing merged t) as Hs. split; [exact Hs|].
  induction Hs as [|b bs Hs IH Hall]; constructor; [|exact IH].
  rewrite Forall_forall in Hall. intros Hin. specialize (Hall b Hin). lia.
Qed.

Example aggregation_of_sample_rows :
  group_by_hourly_average_cooking_metrics sample_merged =
  [ {| ha_timestamp := clock sample_day 10 0; ha_arepa_type := "classic";
       ha_metric_1 := 2.5; ha_metric_2 := 4.5 |};
    {| ha_timestamp := clock sample_day 11 0; ha_arepa_type := "classic";
       ha_metric_1 := 6; ha_metric_2 := 8 |};
    {| ha_timestamp := clock sample_day 11 0; ha_arepa_type := "reina";
       ha_metric_1 := 10; ha_metric_2 := PrimFloat.nan |} ].
Proof. vm_compute. reflexivity. Qed.

(** ** The loader and the stages after it *)

Section LoadedColumns.

Variable pd_import_csv : string -> string -> string -> result DataFrame.
Variable pd_to_datetime : list cell -> result conversion.

Lemma coerce_column_instants (df df' : DataFrame) (c col : string) :
  coerce_column pd_to_datetime df c = Return df' ->
  (col = c /\ has_column df c = true) \/
  (forall row v, In row (rows df) -> lookup col row = Some v ->
                 v = NaT \/ exists t, v = Timestamp t) ->
  forall row v, In row (rows df') -> lookup col row = Some v ->
                v = NaT \/ exists t, v = Timestamp t.
Proof.
  intros H Hcase row v Hrow Hv. apply coerce_column_Return in H.
  destruct H as [[Habsent ->] | [_ (conv & _ & ->)]].
  - destruct Hcase as [[_ Hhas] | Hinv]; [congruence | exact (Hinv row v Hrow Hv)].
  - simpl in Hrow. apply in_map_iff in Hrow. destruct Hrow as (row0 & <- & Hrow0).
    rewrite lookup_map_column in Hv.
    destruct (String.eqb_spec col c) as [-> | Hne].
    + destruct (lookup c row0) as [v0|]; [|discriminate].
      injection Hv as <-. apply coerce_is_instant.
    + destruct Hcase as [[Heq _] | Hinv]; [contradiction | exact (Hinv row0 v Hrow0 Hv)].
Qed.

Lemma coerce_columns_instants (date_cols : list string) (df loaded : DataFrame)
    (col : string) :
  coerce_columns pd_to_datetime date_cols df = Return loaded ->
  (In col date_cols /\ has_column df col = true) \/
  (forall row v, In row (rows df) -> lookup col row = Some v ->
                 v = NaT \/ exists t, v = Timestamp t) ->
  forall row v, In row (rows loaded) -> lookup col row = Some v ->
                v = NaT \/ exists t, v = Timestamp t.
Proof.
  revert df. induction date_cols as [|c rest IH]; intros df; simpl.
  - intros [= <-] [[[] _] | Hinv]. exact Hinv.
  - destruct (coerce_column pd_to_datetime df c) as [df1|e] eqn:E; simpl; [|discriminate].
    intros Hrest Hcase. apply (IH df1 Hrest).
    destruct (String.eqb_spec col c) as [-> | Hne].
    + destruct Hcase as [[_ Hhas] | Hinv].
      * right. apply (coerce_column_instants df df1 c c E). left. auto.
      * right. apply (coerce_column_instants df df1 c c E). right. exact Hinv.
    + destruct Hcase as [[[Heq | Hin] Hhas] | Hinv].
      * congruence.
      * left. split; [exact Hin|]. unfold has_column.
        rewrite (coerce_column_columns pd_to_datetime df df1 c E). exact Hhas.
      * right. apply (coerce_column_instants df df1 c col E). right. exact Hinv.
Qed.

End LoadedColumns.

(** X16. In a frame the Loader returns, every value of a declared date column
    that the file has is an instant or the missing instant: no text and no
    number is left in it, whatever the file held. *)
Theorem loaded_date_columns_hold_instants
    (pd_import_csv : string -> string -> string -> result DataFrame)
    (pd_to_datetime : list cell -> result conversion)
    (file_path : string) (date_cols : list string) (delimiter decimal_separator : string)
    (loaded : DataFrame) (row : raw_row) (col : string) (c : cell) :
  load_dataset pd_import_csv pd_to_datetime file_path date_cols
               delimiter decimal_separator = Return loaded ->
  In row (rows loaded) -> In col date_cols -> has_column loaded col = true ->
  lookup col row = Some c ->
  c = NaT \/ exists t, c = Timestamp t.
Proof.
  intros Hload Hrow Hcol Hhas Hc.
  apply load_dataset_Return in Hload. destruct Hload as (df & _ & Hcoerce).
  apply (coerce_columns_instants pd_to_datetime date_cols df loaded col Hcoerce)
    with (row := row); [|exact Hrow|exact Hc].
  left. split; [exact Hcol|]. unfold has_column in *.
  rewrite <- (coerce_columns_columns pd_to_datetime date_cols df loaded Hcoerce).
  exact Hhas.
Qed.

Lemma loaded_date_columns_hold_instants_witness :
  (load_dataset sample_files sample_to_datetime "input_dataset/faulty_intervals.csv"
     date_columns ";" "," = Return (loaded_faulty sample_day)
   /\ In [("machine_id", Str "M1"); ("start_time", Timestamp (clock sample_day 11 0));
          ("end_time", Timestamp (clock sample_day 11 30))]%string
         (rows (loaded_faulty sample_day))
   /\ In "end_time"%string date_columns
   /\ has_column (loaded_faulty sample_day) "end_time" = true
   /\ lookup "end_time"
        [("machine_id", Str "M1"); ("start_time", Timestamp (clock sample_day 11 0));
         ("end_time", Timestamp (clock sample_day 11 30))]%string =
      Some (Timestamp (clock sample_day 11 30)))
  /\ (Timestamp (clock sample_day 11 30) = NaT \/
      exists t, Timestamp (clock sample_day 11 30) = Timestamp t).
Proof.
  split.
  - repeat split; try reflexivity.
    + left. reflexivity.
    + right. right. left. reflexivity.
  - apply (loaded_date_columns_hold_instants sample_files sample_to_datetime
             "input_dataset/faulty_intervals.csv" date_columns ";" ","
             (loaded_faulty sample_day)
             [("machine_id", Str "M1"); ("start_time", Timestamp (clock sample_day 11 0));
              ("end_time", Timestamp (clock sample_day 11 30))]%string
             "end_time" (Timestamp (clock sample_day 11 30))); try reflexivity.
    + left. reflexivity.
    + right. right. left. reflexivity.
Defined.

(** ** Whole runs *)

Lemma floor_hour_monotone (t1 t2 : instant) :
  t1 <= t2 -> floor_hour t1 <= floor_hour t2.
Proof.
  intros H. unfold floor_hour. pose proof hour_pos as Hpos.
  apply Z.mul_le_mono_nonneg_l; [lia|]. apply Z.div_le_mono; assumption.
Qed.

Lemma stages_in_window (cooking faulty registry : DataFrame) (machine : string)
    (sd ed : datetime) (filtered excluded : list MetricRecord)
    (merged : list MergedRow) (j : MergedRow) :
  window_stage cooking machine sd ed = Return filtered ->
  exclusion_stage faulty cooking filtered machine = Return excluded ->
  merge_stage cooking registry excluded = Return merged ->
  is_aware_column cooking "timestamp" = false ->
  In j merged ->
  mr_machine_id j = Some machine /\
  exists s e t, sd = Naive s /\ ed = Naive e /\ mr_timestamp j = Some t /\ s <= t <= e.
Proof.
  intros Hw Hx Hm Hnaive Hj.
  apply window_stage_Return in Hw.
  destruct Hw as (cooking_rows & s & e & _ & Hs & He & ->).
  apply comparable_naive in Hs; [|exact Hnaive].
  apply comparable_naive in He; [|exact Hnaive].
  apply merge_stage_Return in Hm. subst merged.
  apply pd_merge_In in Hj. destruct Hj as (m & b & Hin & _ & _ & ->).
  unfold exclusion_stage in Hx.
  apply (exclusion_loop_In _ _ _ _ _ _ Hx) in Hin.
  unfold filter_cooking_data in Hin. apply filter_In in Hin.
  destruct Hin as [_ Hwin]. apply in_window_true in Hwin.
  destruct Hwin as [Hmach (t & Ht & Hrange)].
  split; [exact Hmach|]. exists s, e, t. auto.
Qed.

Lemma filter_faulty_intervals_nil (faulty : list FaultyInterval) (machine : string) :
  filter_faulty_intervals faulty [] machine = [].
Proof. rewrite filter_faulty_intervals_filter. reflexivity. Qed.

Lemma window_stage_schema (cooking : DataFrame) (machine : string) (s e : instant) :
  cooking_schema cooking = true ->
  exists cooking_rows,
    metric_records cooking = Return cooking_rows /\
    window_stage cooking machine (Naive s) (Naive e) =
    Return (filter_cooking_data cooking_rows machine s e).
Proof.
  unfold cooking_schema. rewrite !andb_true_iff, !negb_true_iff.
  intros [[[[[[[[[[Hm Ht] Hb] H1] H2] Ha] Hi] Hn] Hd1] Hd2] Hdb].
  destruct (metric_records_total cooking Hi) as (cooking_rows & Hrows).
  exists cooking_rows. split; [exact Hrows|].
  unfold window_stage, require, comparable. rewrite Hm, Ht, Hrows, Hn. reflexivity.
Qed.

Lemma merge_stage_schema (cooking registry : DataFrame) (filtered : list MetricRecord) :
  cooking_schema cooking = true -> registry_schema registry = true ->
  merge_stage cooking registry filtered =
  Return (pd_merge filtered (registry_records registry)).
Proof.
  unfold cooking_schema, registry_schema. rewrite !andb_true_iff, !negb_true_iff.
  intros [[[[[[[[[[Hm Ht] Hb] H1] H2] Ha] Hi] Hn] Hd1] Hd2] Hdb].
  intros [[[[[[Rb Ra] Rt] R1] R2] Rtext] Rdb].
  unfold merge_stage, require, check_merge_keys. rewrite Rb, Hb. simpl.
  destruct (column_dtype cooking "batch_id"); try discriminate.
  destruct (column_dtype registry "batch_id"); try discriminate.
  destruct filtered, (rows registry); reflexivity.
Qed.

(** X17. Whatever the files hold, a run that returns a table returns rows of
    the requested type only, each stamped with the start of a clock hour that
    lies between the hour of the window's start and the window's end, in
    strictly increasing order of time. *)
Theorem run_output_shape
    (pd_import_csv : string -> string -> string -> result DataFrame)
    (pd_to_datetime : list cell -> result conversion)
    (fromisoformat : string -> result datetime)
    (cooking_path faulty_path batch_path machine arepa s_text e_text : string)
    (table : list HourlyAggregate) :
  generate_training_dataset pd_import_csv pd_to_datetime fromisoformat
    cooking_path faulty_path batch_path machine arepa s_text e_text = Return table ->
  (forall o, In o table ->
     ha_arepa_type o = arepa /\ ha_timestamp o mod hour = 0 /\
     exists s e, fromisoformat s_text = Return (Naive s) /\
                 fromisoformat e_text = Return (Naive e) /\
                 floor_hour s <= ha_timestamp o <= e)
  /\ StronglySorted Z.lt (map ha_timestamp table).
Proof.
  intros Hrun. apply run_inversion in Hrun.
  destruct Hrun as (cooking & faulty & registry & sd & ed & filtered & excluded &
                    merged & hourly & Hs & He & Hw & Hx & Hm & Ha & ->).
  apply aggregation_stage_Return in Ha. destruct Ha as [-> Hnaive].
  split; [|apply typed_output_increasing].
  intros o Ho. apply filter_by_arepa_type_In in Ho. destruct Ho as [Ho Htype].
  split; [exact Htype|].
  apply output_is_aggregate in Ho. destruct Ho as [_ Hk].
  apply groups_In in Hk. destruct Hk as (j & Hj & Hkey).
  unfold label in Hkey. apply key_of_Some in Hkey. destruct Hkey as (t & Ht & Hb & _).
  destruct (stages_in_window cooking faulty registry machine sd ed filtered excluded
              merged j Hw Hx Hm Hnaive Hj)
    as [_ (s & e & t' & -> & -> & Ht' & Hrange)].
  rewrite Ht in Ht'. injection Ht' as <-.
  pose proof (floor_hour_spec t) as [Hfloor Hmod].
  pose proof (floor_hour_monotone s t (proj1 Hrange)) as Hmono.
  rewrite <- Hb. split; [exact Hmod|]. exists s, e. repeat split; try assumption; lia.
Qed.

Lemma run_output_shape_witness :
  generate_training_dataset sample_files sample_to_datetime sample_fromisoformat
    "input_dataset/cooking_metrics.csv" "input_dataset/faulty_intervals.csv"
    "input_dataset/batch_registry.csv" "M1" "classic"
    "2024-01-01T10:00:00" "2024-01-01T12:00:00" =
    Return (scenario_aggregates sample_day)
  /\ (forall o,
        In o (scenario_aggregates sample_day) ->
        ha_arepa_type o = "classic"%string /\ ha_timestamp o mod hour = 0 /\
        exists s e, sample_fromisoformat "2024-01-01T10:00:00" = Return (Naive s) /\
                    sample_fromisoformat "2024-01-01T12:00:00" = Return (Naive e) /\
                    floor_hour s <= ha_timestamp o <= e)
  /\ StronglySorted Z.lt (map ha_timestamp (scenario_aggregates sample_day)).
Proof.
  split.
  - vm_compute. reflexivity.
  - apply (run_output_shape sample_files sample_to_datetime sample_fromisoformat
             "input_dataset/cooking_metrics.csv" "input_dataset/faulty_intervals.csv"
             "input_dataset/batch_registry.csv" "M1" "classic"
             "2024-01-01T10:00:00" "2024-01-01T12:00:00").
    vm_compute. reflexivity.
Defined.

(** X18. The three files are loaded before anything else is looked at: when
    the metrics file loads and the load of the intervals file, or after it
    the load of the registry file, raises an exception (the file cannot be
    read, or one of its date columns cannot be converted), the run ends with
    that exception, whatever the time arguments and the columns of the
    frames already loaded. *)
Theorem later_load_failure_is_raised
    (pd_import_csv : string -> string -> string -> result DataFrame)
    (pd_to_datetime : list cell -> result conversion)
    (fromisoformat : string -> result datetime)
    (cooking_path faulty_path batch_path machine arepa s_text e_text : string)
    (cooking : DataFrame) (e : exn) :
  load_dataset pd_import_csv pd_to_datetime cooking_path date_columns ";" "," =
    Return cooking ->
  load_dataset pd_import_csv pd_to_datetime faulty_path date_columns ";" "," = Raise e \/
  ((exists faulty,
      load_dataset pd_import_csv pd_to_datetime faulty_path date_columns ";" "," =
      Return faulty) /\
   load_dataset pd_import_csv pd_to_datetime batch_path date_columns ";" "," = Raise e) ->
  generate_training_dataset pd_import_csv pd_to_datetime fromisoformat
    cooking_path faulty_path batch_path machine arepa s_text e_text = Raise e.
Proof.
  intros Hc [Hf | [(faulty & Hf) Hb]];
    unfold generate_training_dataset; rewrite Hc; simpl; rewrite Hf; simpl.
  - reflexivity.
  - rewrite Hb. reflexivity.
Qed.

Lemma later_load_failure_is_raised_witness :
  (load_dataset sample_files sample_to_datetime
     "input_dataset/cooking_metrics.csv" date_columns ";" "," =
     Return (loaded_cooking sample_day)
   /\ (load_dataset sample_files sample_to_datetime
         "input_dataset/faulty_intervals.csv" date_columns ";" "," =
         Raise (FileNotFoundError "registry.csv") \/
       ((exists faulty,
           load_dataset sample_files sample_to_datetime
             "input_dataset/faulty_intervals.csv" date_columns ";" "," = Return faulty) /\
        load_dataset sample_files sample_to_datetime "registry.csv" date_columns ";" "," =
        Raise (FileNotFoundError "registry.csv"))))
  /\ generate_training_dataset sample_files sample_to_datetime sample_fromisoformat
       "input_dataset/cooking_metrics.csv" "input_dataset/faulty_intervals.csv"
       "registry.csv" "M1" "classic" "not a date" "2024-01-01T12:00:00" =
     Raise (FileNotFoundError "registry.csv").
Proof.
  assert (H : load_dataset sample_files sample_to_datetime
                "input_dataset/faulty_intervals.csv" date_columns ";" "," =
                Raise (FileNotFoundError "registry.csv") \/
              ((exists faulty,
                  load_dataset sample_files sample_to_datetime
                    "input_dataset/faulty_intervals.csv" date_columns ";" "," =
                  Return faulty) /\
               load_dataset sample_files sample_to_datetime "registry.csv"
                 date_columns ";" "," = Raise (FileNotFoundError "registry.csv"))).
  { right. split; [eexists; reflexivity | reflexivity]. }
  split; [split; [reflexivity | exact H]|].
  apply (later_load_failure_is_raised sample_files sample_to_datetime
           sample_fromisoformat
           "input_dataset/cooking_metrics.csv" "input_dataset/faulty_intervals.csv"
           "registry.csv" "M1" "classic" "not a date" "2024-01-01T12:00:00"
           (loaded_cooking sample_day)
           (FileNotFoundError "registry.csv")); [reflexivity | exact H].
Defined.

(** X19. A bound of the window that is not ISO text stops the run once the
    three files are loaded, and before any column is looked at: when the
    three loads return their frames, the run ends with the exception of the
    parse even for frames that lack their columns. *)
Theorem time_parse_failure_is_raised
    (pd_import_csv : string -> string -> string -> result DataFrame)
    (pd_to_datetime : list cell -> result conversion)
    (fromisoformat : string -> result datetime)
    (cooking_path faulty_path batch_path machine arepa s_text e_text : string)
    (cooking faulty registry : DataFrame) (e : exn) :
  load_dataset pd_import_csv pd_to_datetime cooking_path date_columns ";" "," =
    Return cooking ->
  load_dataset pd_import_csv pd_to_datetime faulty_path date_columns ";" "," =
    Return faulty ->
  load_dataset pd_import_csv pd_to_datetime batch_path date_columns ";" "," =
    Return registry ->
  fromisoformat s_text = Raise e \/
  ((exists s, fromisoformat s_text = Return s) /\ fromisoformat e_text = Raise e) ->
  generate_training_dataset pd_import_csv pd_to_datetime fromisoformat
    cooking_path faulty_path batch_path machine arepa s_text e_text = Raise e.
Proof.
  intros Hc Hf Hb [Hs | [(s & Hs) He]];
    unfold generate_training_dataset; rewrite Hc, Hf, Hb; simpl;
    rewrite Hs; simpl.
  - reflexivity.
  - rewrite He. reflexivity.
Qed.

Lemma time_parse_failure_is_raised_witness :
  (load_dataset sample_files sample_to_datetime
     "input_dataset/batch_registry.csv" date_columns ";" "," = Return scenario_registry
   /\ (sample_fromisoformat "2024-01-01T10:00:00" = Raise (ValueError "noon") \/
       ((exists s, sample_fromisoformat "2024-01-01T10:00:00" = Return s) /\
        sample_fromisoformat "noon" = Raise (ValueError "noon"))))
  /\ generate_training_dataset sample_files sample_to_datetime sample_fromisoformat
       "input_dataset/batch_registry.csv" "input_dataset/batch_registry.csv"
       "input_dataset/batch_registry.csv" "M1" "classic"
       "2024-01-01T10:00:00" "noon" = Raise (ValueError "noon").
Proof.
  assert (H : sample_fromisoformat "2024-01-01T10:00:00" = Raise (ValueError "noon") \/
              ((exists s, sample_fromisoformat "2024-01-01T10:00:00" = Return s) /\
               sample_fromisoformat "noon" = Raise (ValueError "noon"))).
  { right. split; [eexists; reflexivity | reflexivity]. }
  split; [split; [reflexivity | exact H]|].
  apply (time_parse_failure_is_raised sample_files sample_to_datetime
           sample_fromisoformat
           "input_dataset/batch_registry.csv" "input_dataset/batch_registry.csv"
           "input_dataset/batch_registry.csv" "M1" "classic"
           "2024-01-01T10:00:00" "noon"
           scenario_registry scenario_registry scenario_registry
           (ValueError "noon")); try reflexivity. exact H.
Defined.

(** X20. A run whose sources load frames that are as the script expects them
    (each with its columns, naive instants in the datetime columns, numbers
    in the metrics, texts for the batch ids and the types) and whose bounds
    parse as naive datetimes returns the empty table, without an exception,
    when no reading is of the requested machine or when the window ends
    before it starts. *)
Theorem run_without_readings_is_empty
    (pd_import_csv : string -> string -> string -> result DataFrame)
    (pd_to_datetime : list cell -> result conversion)
    (fromisoformat : string -> result datetime)
    (cooking_path faulty_path batch_path machine arepa s_text e_text : string)
    (cooking faulty registry : DataFrame) (s e : instant) :
  load_dataset pd_import_csv pd_to_datetime cooking_path date_columns ";" "," =
    Return cooking ->
  load_dataset pd_import_csv pd_to_datetime faulty_path date_columns ";" "," =
    Return faulty ->
  load_dataset pd_import_csv pd_to_datetime batch_path date_columns ";" "," =
    Return registry ->
  fromisoformat s_text = Return (Naive s) ->
  fromisoformat e_text = Return (Naive e) ->
  cooking_schema cooking = true ->
  faulty_schema faulty = true ->
  registry_schema registry = true ->
  (forall row, In row (rows cooking) -> get "machine_id" row <> Str machine) \/ e < s ->
  generate_training_dataset pd_import_csv pd_to_datetime fromisoformat
    cooking_path faulty_path batch_path machine arepa s_text e_text = Return [].
Proof.
  intros Hc Hf Hb Hs He Hcs Hfs Hrs Hnone.
  destruct (window_stage_schema cooking machine s e Hcs) as (cooking_rows & Hrows & Hw).
  assert (Hwin : filter_cooking_data cooking_rows machine s e = []).
  { unfold filter_cooking_data. apply filter_none. intros r Hr.
    apply not_true_is_false. intros Hin. apply in_window_true in Hin.
    destruct Hin as [Hm (t & _ & Hrange)].
    destruct Hnone as [Hnone | Hlt]; [|lia].
    destruct (metric_records_machine cooking cooking_rows Hrows r Hr)
      as (row & Hrow & Hmach).
    apply (Hnone row Hrow). rewrite Hm in Hmach.
    destruct (get "machine_id" row); simpl in Hmach; congruence. }
  rewrite Hwin in Hw.
  assert (Hnaive : is_aware_column cooking "timestamp" = false).
  { unfold cooking_schema in Hcs. rewrite !andb_true_iff, !negb_true_iff in Hcs.
    tauto. }
  pose proof (exclusion_stage_schema faulty cooking [] machine Hfs Hnaive) as Hx.
  rewrite filter_faulty_intervals_nil in Hx.
  pose proof (merge_stage_schema cooking registry [] Hcs Hrs) as Hm.
  pose proof (aggregation_stage_schema cooking registry
                (pd_merge [] (registry_records registry)) Hcs Hrs) as Ha.
  rewrite (run_stages pd_import_csv pd_to_datetime fromisoformat
             cooking_path faulty_path batch_path machine arepa s_text e_text
             cooking faulty registry (Naive s) (Naive e) [] []
             (pd_merge [] (registry_records registry))
             (group_by_hourly_average_cooking_metrics
                (pd_merge [] (registry_records registry)))
             Hc Hf Hb Hs He Hw Hx Hm Ha).
  reflexivity.
Qed.

Lemma run_without_readings_is_empty_witness :
  (load_dataset sample_files sample_to_datetime
     "input_dataset/cooking_metrics.csv" date_columns ";" "," =
     Return (loaded_cooking sample_day)
   /\ load_dataset sample_files sample_to_datetime
     "input_dataset/faulty_intervals.csv" date_columns ";" "," =
     Return (loaded_faulty sample_day)
   /\ load_dataset sample_files sample_to_datetime
     "input_dataset/batch_registry.csv" date_columns ";" "," = Return scenario_registry
   /\ sample_fromisoformat "2024-01-01T10:00:00" = Return (Naive (clock sample_day 10 0))
   /\ sample_fromisoformat "2024-01-01T12:00:00" = Return (Naive (clock sample_day 12 0))
   /\ cooking_schema (loaded_cooking sample_day) = true
   /\ faulty_schema (loaded_faulty sample_day) = true
   /\ registry_schema scenario_registry = true
   /\ ((forall row, In row (rows (loaded_cooking sample_day)) ->
                    get "machine_id" row <> Str "M7")
       \/ clock sample_day 12 0 < clock sample_day 10 0))
  /\ generate_training_dataset sample_files sample_to_datetime sample_fromisoformat
       "input_dataset/cooking_metrics.csv" "input_dataset/faulty_intervals.csv"
       "input_dataset/batch_registry.csv" "M7" "classic"
       "2024-01-01T10:00:00" "2024-01-01T12:00:00" = Return [].
Proof.
  assert (Hnone : (forall row, In row (rows (loaded_cooking sample_day)) ->
                               get "machine_id" row <> Str "M7")
                  \/ clock sample_day 12 0 < clock sample_day 10 0).
  { left. intros row Hrow. simpl in Hrow.
    destruct Hrow as [<- | [<- | [<- | []]]]; discriminate. }
  split.
  - repeat split; try reflexivity. exact Hnone.
  - apply (run_without_readings_is_empty
             sample_files sample_to_datetime sample_fromisoformat
             "input_dataset/cooking_metrics.csv" "input_dataset/faulty_intervals.csv"
             "input_dataset/batch_registry.csv" "M7" "classic"
             "2024-01-01T10:00:00" "2024-01-01T12:00:00"
             (loaded_cooking sample_day) (loaded_faulty sample_day) scenario_registry
             (clock sample_day 10 0) (clock sample_day 12 0)); try reflexivity.
    exact Hnone.
Defined.

(** X21. A file that has none of the declared date columns is returned as it
    was read: the Loader changes no value of it. *)
Theorem load_without_date_columns_is_identity
    (pd_import_csv : string -> string -> string -> result DataFrame)
    (pd_to_datetime : list cell -> result conversion)
    (file_path : string) (date_cols : list string) (delimiter decimal_separator : string)
    (df : DataFrame) :
  pd_import_csv file_path delimiter decimal_separator = Return df ->
  (forall col, In col date_cols -> has_column df col = false) ->
  load_dataset pd_import_csv pd_to_datetime file_path date_cols
               delimiter decimal_separator = Return df.
Proof.
  intros Hread Habsent. unfold load_dataset. rewrite Hread.
  induction date_cols as [|col date_cols IH]; simpl; [reflexivity|].
  unfold coerce_column at 1. rewrite (Habsent col (or_introl eq_refl)). simpl.
  apply IH. intros c Hc. apply Habsent. right. exact Hc.
Qed.

Lemma load_without_date_columns_is_identity_witness :
  (sample_files "input_dataset/batch_registry.csv" ";" "," = Return scenario_registry
   /\ (forall col, In col date_columns -> has_column scenario_registry col = false))
  /\ load_dataset sample_files sample_to_datetime "input_dataset/batch_registry.csv"
       date_columns ";" "," = Return scenario_registry.
Proof.
  assert (Habsent : forall col, In col date_columns ->
                                has_column scenario_registry col = false).
  { intros col Hcol. simpl in Hcol.
    destruct Hcol as [<- | [<- | [<- | []]]]; reflexivity. }
  split; [split; [reflexivity | exact Habsent]|].
  apply (load_without_date_columns_is_identity sample_files sample_to_datetime
           "input_dataset/batch_registry.csv" date_columns ";" ","
           scenario_registry); [reflexivity | exact Habsent].
Defined.

(** ** Filtering by type before the aggregation *)

Lemma row_keys_of_type (merged : list MergedRow) (t : string) :
  row_keys (filter (fun r => text_eq (mr_arepa_type r) t) merged) =
  filter (fun k => String.eqb (snd k) t) (row_keys merged).
Proof.
  induction merged as [|r merged IH]; simpl; [reflexivity|].
  destruct (text_eq (mr_arepa_type r) t) eqn:Et; simpl;
    unfold key_of; unfold text_eq in Et;
    destruct (mr_arepa_type r) as [a|]; destruct (mr_timestamp r) as [u|]; simpl;
    try rewrite Et; try rewrite IH; try reflexivity; try discriminate.
Qed.

Lemma existsb_filter_key (p : group_key -> bool) (k : group_key) (ks : list group_key) :
  p k = true ->
  existsb (group_key_eqb k) (filter p ks) = existsb (group_key_eqb k) ks.
Proof.
  intros Hp. apply eq_true_iff_eq. rewrite !existsb_group_key, filter_In. tauto.
Qed.

Lemma distinct_filter (p : group_key -> bool) (ks : list group_key) :
  distinct (filter p ks) = filter p (distinct ks).
Proof.
  induction ks as [|k ks IH]; simpl; [reflexivity|].
  destruct (p k) eqn:Hp; simpl.
  - rewrite (existsb_filter_key p k ks Hp).
    destruct (existsb (group_key_eqb k) ks); simpl; [exact IH|].
    rewrite Hp, IH. reflexivity.
  - destruct (existsb (group_key_eqb k) ks); simpl; [exact IH|].
    rewrite Hp. exact IH.
Qed.

Lemma insert_key_head (k : group_key) (ks : list group_key) :
  Forall (fun h => group_key_leb k h = true) ks -> insert_key k ks = k :: ks.
Proof.
  intros H. destruct ks as [|h ks]; simpl; [reflexivity|].
  inversion H as [|h' ks' Hh _]; subst. rewrite Hh. reflexivity.
Qed.

Lemma insert_key_filter (p : group_key -> bool) (k : group_key) (ks : list group_key) :
  StronglySorted (fun k1 k2 => group_key_leb k1 k2 = true) ks ->
  filter p (insert_key k ks) =
  if p k then insert_key k (filter p ks) else filter p ks.
Proof.
  induction 1 as [|h ks Hs IH Hall]; simpl.
  - destruct (p k); reflexivity.
  - destruct (group_key_leb k h) eqn:Ekh; simpl.
    + destruct (p k) eqn:Hpk; [|reflexivity].
      destruct (p h); simpl; [rewrite Ekh; reflexivity|].
      symmetry. apply insert_key_head.
      rewrite Forall_forall in *. intros x Hx. apply filter_In in Hx.
      apply (group_key_leb_trans k h x Ekh). apply Hall. tauto.
    + destruct (p h); simpl; rewrite IH; destruct (p k); simpl;
        try rewrite Ekh; reflexivity.
Qed.

Lemma sort_keys_StronglySorted (ks : list group_key) :
  StronglySorted (fun k1 k2 => group_key_leb k1 k2 = true) (sort_keys ks).
Proof.
  apply Sorted_StronglySorted; [intros k1 k2 k3; apply group_key_leb_trans|].
  induction ks as [|k ks IH]; simpl; [constructor | apply insert_key_Sorted; exact IH].
Qed.

Lemma sort_keys_filter (p : group_key -> bool) (ks : list group_key) :
  sort_keys (filter p ks) = filter p (sort_keys ks).
Proof.
  induction ks as [|k ks IH]; simpl; [reflexivity|].
  rewrite (insert_key_filter p k _ (sort_keys_StronglySorted ks)).
  destruct (p k); simpl; rewrite IH; reflexivity.
Qed.

Lemma filter_map_aggregate (merged : list MergedRow) (t : string) (ks : list group_key) :
  filter (fun o => String.eqb (ha_arepa_type o) t) (map (aggregate merged) ks) =
  map (aggregate merged) (filter (fun k => String.eqb (snd k) t) ks).
Proof.
  induction ks as [|k ks IH]; simpl; [reflexivity|].
  destruct (String.eqb (snd k) t); simpl; rewrite IH; reflexivity.
Qed.

(** X22. Filtering by product type commutes with the aggregation: keeping
    the merged rows of the requested type and aggregating them gives the
    table the script obtains by aggregating all types and filtering last. *)
Theorem type_filter_commutes_with_aggregation (merged : list MergedRow) (t : string) :
  filter_by_arepa_type (group_by_hourly_average_cooking_metrics merged) t =
  group_by_hourly_average_cooking_metrics
    (filter (fun r => text_eq (mr_arepa_type r) t) merged).
Proof.
  unfold filter_by_arepa_type, group_by_hourly_average_cooking_metrics, groups.
  rewrite filter_map_aggregate, row_keys_of_type, distinct_filter, sort_keys_filter.
  apply map_ext_in. intros k Hk. apply filter_In in Hk. destruct Hk as [_ Hk].
  apply String.eqb_eq in Hk. unfold aggregate.
  assert (Hmem : filter (in_group k)
                   (filter (fun r => text_eq (mr_arepa_type r) t) merged) =
                 filter (in_group k) merged).
  { rewrite filter_filter. apply filter_ext. intros r.
    destruct (in_group k r) eqn:E; [|apply andb_false_r].
    apply in_group_true in E. destruct k as [b a]. apply key_of_Some in E.
    destruct E as (u & _ & _ & Ha). simpl in Hk. subst a.
    rewrite Ha. simpl. rewrite String.eqb_refl. reflexivity. }
  rewrite Hmem. reflexivity.
Qed.
